(** * iGit: the application core of the interactive staging front-end

    A shallow embedding of the Go sources of the iGit terminal front-end:
    the layout engine ([ui.NewLayout]), the binary-content heuristic
    ([isBinaryFile]), the selection model ([toggleSelection], [selectAll],
    [deselectAll]), the background commands of [commands.go] and the
    message loop [Model.Update] with its key handlers.

    Go [int] values that can be negative (widths, list indices) are [Z];
    lengths and counters are [nat].  A Go [error] is [option string]
    ([None] for [nil], [Some e] for an error whose [Error()] is [e]). *)

From Stdlib Require Import ZArith Lia List.
From stdpp Require Import base gmap strings list.
Import ListNotations.

Set Warnings "-register-all -abstract-large-number".
Open Scope Z_scope.

(* ================================================================== *)
(** ** Layout engine ([ui/layout.go], unnamed part_002) *)

Module Layout.

Record Layout := mkLayout {
  TotalWidth : Z;
  TotalHeight : Z;
  ListWidth : Z;
  PreviewWidth : Z;
  ContentHeight : Z
}.

(** [NewLayout width height], statement by statement. *)
Definition NewLayout (width height : Z) : Layout :=
  let contentHeight := height - 5 in
  let contentHeight := if contentHeight <? 5 then 5 else contentHeight in
  let '(listWidth, previewWidth) :=
    if width <? 100 then (width - 2, 0)
    else if width <? 140 then
      let lw := width / 2 in (lw, width - lw - 2)
    else
      let lw := (width * 2) / 5 in (lw, width - lw - 2) in
  let '(listWidth, previewWidth) :=
    if listWidth <? 30 then (30, 0) else (listWidth, previewWidth) in
  let previewWidth := if previewWidth <? 30 then 0 else previewWidth in
  mkLayout width height listWidth previewWidth contentHeight.

Definition HasPreviewPane (l : Layout) : bool := 0 <? PreviewWidth l.

Definition ListHeight (l : Layout) : Z := ContentHeight l - 2.

End Layout.

(* ================================================================== *)
(** ** Binary-content heuristic ([isBinaryFile], commands.go) *)

Module Binary.

Open Scope nat_scope.

Definition byte_val (b : Byte.byte) : nat := N.to_nat (Byte.to_N b).

(** [bytes.Contains(data, []byte{0})] *)
Definition contains_nul (data : list Byte.byte) : bool :=
  existsb (fun b => Nat.eqb (byte_val b) 0) data.

(** The loop test: not one of [\t \n \r ' '], and outside 32..126, and
    outside 128..191. *)
Definition is_non_text (b : Byte.byte) : bool :=
  let v := byte_val b in
  negb (existsb (Nat.eqb v) [9; 10; 13; 32]) &&
  (Nat.ltb v 32 || Nat.ltb 126 v) && (Nat.ltb v 128 || Nat.ltb 191 v).

Definition count_non_text (sample : list Byte.byte) : nat :=
  length (filter is_non_text sample).

Definition sample_size (data : list Byte.byte) : nat :=
  if 8192 <? length data then 8192 else length data.

Definition isBinaryFile (data : list Byte.byte) : bool :=
  if contains_nul data then true
  else if 0 <? length data then
    let sampleSize := sample_size data in
    let nonTextCount := count_non_text (firstn sampleSize data) in
    if (0 <? sampleSize) && (30 <? nonTextCount * 100 / sampleSize) then true
    else false
  else false.

End Binary.

(* ================================================================== *)
(** ** Git data ([git/types.go], [git/status.go]) *)

Inductive FileStatus := StatusStaged | StatusUnstaged | StatusUntracked.

Definition FileStatus_eqb (a b : FileStatus) : bool :=
  match a, b with
  | StatusStaged, StatusStaged | StatusUnstaged, StatusUnstaged
  | StatusUntracked, StatusUntracked => true
  | _, _ => false
  end.

Record FileItem := mkFileItem {
  Path : string;
  Status : FileStatus;
  StatusSymbol : string;
  Selected : bool
}.

Definition NewFileItem (path : string) (st : FileStatus) : FileItem :=
  mkFileItem path st
    (match st with StatusStaged => "+" | StatusUnstaged => "-" | StatusUntracked => "?" end)
    false.

Definition set_Selected (b : bool) (f : FileItem) : FileItem :=
  mkFileItem (Path f) (Status f) (StatusSymbol f) b.

Record GitStatus := mkGitStatus {
  Staged : list string;
  Unstaged : list string;
  Untracked : list string;
  Branch : string;
  IsClean : bool
}.

Definition StagedCount (s : GitStatus) : nat := length (Staged s).

(** [AllFiles]: unstaged, then staged, then untracked. *)
Definition AllFiles (s : GitStatus) : list FileItem :=
  map (fun f => NewFileItem f StatusUnstaged) (Unstaged s) ++
  map (fun f => NewFileItem f StatusStaged) (Staged s) ++
  map (fun f => NewFileItem f StatusUntracked) (Untracked s).

Record CommitInfo := mkCommitInfo {
  Hash : string;
  ShortHash : string;
  Message : string;
  Author : string;
  Date : string;
  IsPushed : bool
}.

(* ================================================================== *)
(** ** Application states (main.go) *)

Inductive AppState :=
  StateFileList | StateCommitMessage | StateCommitDate | StateModifyHead | StateHelp.

Definition AppState_eqb (a b : AppState) : bool :=
  match a, b with
  | StateFileList, StateFileList | StateCommitMessage, StateCommitMessage
  | StateCommitDate, StateCommitDate | StateModifyHead, StateModifyHead
  | StateHelp, StateHelp => true
  | _, _ => false
  end.

Inductive CommitState := CommitStateMessage | CommitStateDate | CommitStateConfirm.

Inductive HeadModifyState :=
  HeadModifyStateMenu | HeadModifyStateAmendMessage | HeadModifyStateAmendFiles.

(* ================================================================== *)
(** ** The bubbles widgets, as far as [Update] uses them

    These are library components, not code of the repository; only the
    operations [Update] calls are modelled: the list's items and cursor,
    the viewport's content and scroll offset, and the text inputs' value
    and focus. *)

Record ListModel := mkListModel {
  lm_items : list FileItem;
  lm_index : Z;
  lm_width : Z;
  lm_height : Z
}.

Definition list_SetItems (items : list FileItem) (l : ListModel) : ListModel :=
  mkListModel items (lm_index l) (lm_width l) (lm_height l).

Definition list_Select (i : Z) (l : ListModel) : ListModel :=
  mkListModel (lm_items l) i (lm_width l) (lm_height l).

Definition list_SetWidth (w : Z) (l : ListModel) : ListModel :=
  mkListModel (lm_items l) (lm_index l) w (lm_height l).

Definition list_SetHeight (h : Z) (l : ListModel) : ListModel :=
  mkListModel (lm_items l) (lm_index l) (lm_width l) h.

(** Cursor movement of the list for its up / down / home / end bindings;
    any other key leaves the cursor where it is. *)
Definition list_UpdateKey (k : string) (l : ListModel) : ListModel :=
  let n := Z.of_nat (length (lm_items l)) in
  let i := lm_index l in
  let i' :=
    if String.eqb k "up" || String.eqb k "k" then (if 0 <? i then i - 1 else i)
    else if String.eqb k "down" || String.eqb k "j" then (if i <? n - 1 then i + 1 else i)
    else if String.eqb k "home" || String.eqb k "g" then 0
    else if String.eqb k "end" || String.eqb k "G" then Z.max 0 (n - 1)
    else i in
  list_Select i' l.

Record Viewport := mkViewport {
  vp_content : string;
  vp_width : Z;
  vp_height : Z;
  vp_yoffset : Z
}.

(** [len(strings.Split(s, "\n"))]: one more than the number of newlines. *)
Fixpoint count_newlines (s : string) : nat :=
  match s with
  | EmptyString => 0
  | String c s' => (if Ascii.eqb c (Ascii.ascii_of_nat 10) then 1 else 0) + count_newlines s'
  end%nat.

Definition line_count (s : string) : Z := Z.of_nat (S (count_newlines s)).

Definition vp_maxYOffset (v : Viewport) : Z :=
  Z.max 0 (line_count (vp_content v) - vp_height v).

Definition vp_SetContent (s : string) (v : Viewport) : Viewport :=
  let v' := mkViewport s (vp_width v) (vp_height v) (vp_yoffset v) in
  if line_count s - 1 <? vp_yoffset v
  then mkViewport s (vp_width v) (vp_height v) (vp_maxYOffset v')
  else v'.

Definition vp_LineUp (n : Z) (v : Viewport) : Viewport :=
  mkViewport (vp_content v) (vp_width v) (vp_height v) (Z.max 0 (vp_yoffset v - n)).

Definition vp_LineDown (n : Z) (v : Viewport) : Viewport :=
  mkViewport (vp_content v) (vp_width v) (vp_height v)
    (Z.min (vp_yoffset v + n) (vp_maxYOffset v)).

Definition vp_SetSize (w h : Z) (v : Viewport) : Viewport :=
  mkViewport (vp_content v) w h (vp_yoffset v).

(** A textarea / textinput: its value and whether it has focus; a
    printable one-character key typed into a focused input is appended. *)
Record TextArea := mkTextArea { ta_value : string; ta_focused : bool }.

Definition ta_Reset (t : TextArea) : TextArea := mkTextArea "" (ta_focused t).
Definition ta_SetValue (s : string) (t : TextArea) : TextArea := mkTextArea s (ta_focused t).
Definition ta_Focus (t : TextArea) : TextArea := mkTextArea (ta_value t) true.
Definition ta_Blur (t : TextArea) : TextArea := mkTextArea (ta_value t) false.
Definition ta_Update (k : string) (t : TextArea) : TextArea :=
  if ta_focused t && Nat.eqb (String.length k) 1
  then mkTextArea (ta_value t +:+ k) true else t.

(* ================================================================== *)
(** ** The model *)

(** [Model] (main.go).  The fields [gitClient], [keys], [delegate] and
    [lastStatusMsg] play no part in the update logic; [diffCache] is a Go map
    shared by every copy of the model and written only by running
    [fetchDiffCmd] closures, so it is the separate store [DiffCache] below. *)
Record Model := mkModel {
  (* State *)
  state : AppState;
  width : Z;
  height : Z;
  ready : bool;
  err : string;
  status : string;
  processing : bool;
  (* Git data *)
  files : list FileItem;
  gitStatus : GitStatus;
  (* UI components ([list] is a Rocq type name, hence [listModel]) *)
  listModel : ListModel;
  viewport : Viewport;
  (* UI state *)
  selectedFiles : gmap Z bool;
  showPreview : bool;
  previewFocused : bool;
  lastFileIndex : Z;
  (* Preview/Layout *)
  previewContent : string;
  layout : Layout.Layout;
  (* Commit UI *)
  commitTextarea : TextArea;
  commitInput : TextArea;
  commitMessage : string;
  commitDate : string;
  commitState : CommitState;
  (* HEAD Modification *)
  headInfo : option CommitInfo;
  headModifyState : HeadModifyState;
  headMessageTextarea : TextArea
}.

Definition set_state (v : AppState) (m : Model) : Model :=
  mkModel v (width m) (height m) (ready m) (err m) (status m) (processing m) (files m) (gitStatus m) (listModel m) (viewport m) (selectedFiles m) (showPreview m) (previewFocused m) (lastFileIndex m) (previewContent m) (layout m) (commitTextarea m) (commitInput m) (commitMessage m) (commitDate m) (commitState m) (headInfo m) (headModifyState m) (headMessageTextarea m).
Definition set_width (v : Z) (m : Model) : Model :=
  mkModel (state m) v (height m) (ready m) (err m) (status m) (processing m) (files m) (gitStatus m) (listModel m) (viewport m) (selectedFiles m) (showPreview m) (previewFocused m) (lastFileIndex m) (previewContent m) (layout m) (commitTextarea m) (commitInput m) (commitMessage m) (commitDate m) (commitState m) (headInfo m) (headModifyState m) (headMessageTextarea m).
Definition set_height (v : Z) (m : Model) : Model :=
  mkModel (state m) (width m) v (ready m) (err m) (status m) (processing m) (files m) (gitStatus m) (listModel m) (viewport m) (selectedFiles m) (showPreview m) (previewFocused m) (lastFileIndex m) (previewContent m) (layout m) (commitTextarea m) (commitInput m) (commitMessage m) (commitDate m) (commitState m) (headInfo m) (headModifyState m) (headMessageTextarea m).
Definition set_ready (v : bool) (m : Model) : Model :=
  mkModel (state m) (width m) (height m) v (err m) (status m) (processing m) (files m) (gitStatus m) (listModel m) (viewport m) (selectedFiles m) (showPreview m) (previewFocused m) (lastFileIndex m) (previewContent m) (layout m) (commitTextarea m) (commitInput m) (commitMessage m) (commitDate m) (commitState m) (headInfo m) (headModifyState m) (headMessageTextarea m).
Definition set_err (v : string) (m : Model) : Model :=
  mkModel (state m) (width m) (height m) (ready m) v (status m) (processing m) (files m) (gitStatus m) (listModel m) (viewport m) (selectedFiles m) (showPreview m) (previewFocused m) (lastFileIndex m) (previewContent m) (layout m) (commitTextarea m) (commitInput m) (commitMessage m) (commitDate m) (commitState m) (headInfo m) (headModifyState m) (headMessageTextarea m).
Definition set_status (v : string) (m : Model) : Model :=
  mkModel (state m) (width m) (height m) (ready m) (err m) v (processing m) (files m) (gitStatus m) (listModel m) (viewport m) (selectedFiles m) (showPreview m) (previewFocused m) (lastFileIndex m) (previewContent m) (layout m) (commitTextarea m) (commitInput m) (commitMessage m) (commitDate m) (commitState m) (headInfo m) (headModifyState m) (headMessageTextarea m).
Definition set_processing (v : bool) (m : Model) : Model :=
  mkModel (state m) (width m) (height m) (ready m) (err m) (status m) v (files m) (gitStatus m) (listModel m) (viewport m) (selectedFiles m) (showPreview m) (previewFocused m) (lastFileIndex m) (previewContent m) (layout m) (commitTextarea m) (commitInput m) (commitMessage m) (commitDate m) (commitState m) (headInfo m) (headModifyState m) (headMessageTextarea m).
Definition set_files (v : list FileItem) (m : Model) : Model :=
  mkModel (state m) (width m) (height m) (ready m) (err m) (status m) (processing m) v (gitStatus m) (listModel m) (viewport m) (selectedFiles m) (showPreview m) (previewFocused m) (lastFileIndex m) (previewContent m) (layout m) (commitTextarea m) (commitInput m) (commitMessage m) (commitDate m) (commitState m) (headInfo m) (headModifyState m) (headMessageTextarea m).
Definition set_gitStatus (v : GitStatus) (m : Model) : Model :=
  mkModel (state m) (width m) (height m) (ready m) (err m) (status m) (processing m) (files m) v (listModel m) (viewport m) (selectedFiles m) (showPreview m) (previewFocused m) (lastFileIndex m) (previewContent m) (layout m) (commitTextarea m) (commitInput m) (commitMessage m) (commitDate m) (commitState m) (headInfo m) (headModifyState m) (headMessageTextarea m).
Definition set_listModel (v : ListModel) (m : Model) : Model :=
  mkModel (state m) (width m) (height m) (ready m) (err m) (status m) (processing m) (files m) (gitStatus m) v (viewport m) (selectedFiles m) (showPreview m) (previewFocused m) (lastFileIndex m) (previewContent m) (layout m) (commitTextarea m) (commitInput m) (commitMessage m) (commitDate m) (commitState m) (headInfo m) (headModifyState m) (headMessageTextarea m).
Definition set_viewport (v : Viewport) (m : Model) : Model :=
  mkModel (state m) (width m) (height m) (ready m) (err m) (status m) (processing m) (files m) (gitStatus m) (listModel m) v (selectedFiles m) (showPreview m) (previewFocused m) (lastFileIndex m) (previewContent m) (layout m) (commitTextarea m) (commitInput m) (commitMessage m) (commitDate m) (commitState m) (headInfo m) (headModifyState m) (headMessageTextarea m).
Definition set_selectedFiles (v : gmap Z bool) (m : Model) : Model :=
  mkModel (state m) (width m) (height m) (ready m) (err m) (status m) (processing m) (files m) (gitStatus m) (listModel m) (viewport m) v (showPreview m) (previewFocused m) (lastFileIndex m) (previewContent m) (layout m) (commitTextarea m) (commitInput m) (commitMessage m) (commitDate m) (commitState m) (headInfo m) (headModifyState m) (headMessageTextarea m).
Definition set_showPreview (v : bool) (m : Model) : Model :=
  mkModel (state m) (width m) (height m) (ready m) (err m) (status m) (processing m) (files m) (gitStatus m) (listModel m) (viewport m) (selectedFiles m) v (previewFocused m) (lastFileIndex m) (previewContent m) (layout m) (commitTextarea m) (commitInput m) (commitMessage m) (commitDate m) (commitState m) (headInfo m) (headModifyState m) (headMessageTextarea m).
Definition set_previewFocused (v : bool) (m : Model) : Model :=
  mkModel (state m) (width m) (height m) (ready m) (err m) (status m) (processing m) (files m) (gitStatus m) (listModel m) (viewport m) (selectedFiles m) (showPreview m) v (lastFileIndex m) (previewContent m) (layout m) (commitTextarea m) (commitInput m) (commitMessage m) (commitDate m) (commitState m) (headInfo m) (headModifyState m) (headMessageTextarea m).
Definition set_lastFileIndex (v : Z) (m : Model) : Model :=
  mkModel (state m) (width m) (height m) (ready m) (err m) (status m) (processing m) (files m) (gitStatus m) (listModel m) (viewport m) (selectedFiles m) (showPreview m) (previewFocused m) v (previewContent m) (layout m) (commitTextarea m) (commitInput m) (commitMessage m) (commitDate m) (commitState m) (headInfo m) (headModifyState m) (headMessageTextarea m).
Definition set_previewContent (v : string) (m : Model) : Model :=
  mkModel (state m) (width m) (height m) (ready m) (err m) (status m) (processing m) (files m) (gitStatus m) (listModel m) (viewport m) (selectedFiles m) (showPreview m) (previewFocused m) (lastFileIndex m) v (layout m) (commitTextarea m) (commitInput m) (commitMessage m) (commitDate m) (commitState m) (headInfo m) (headModifyState m) (headMessageTextarea m).
Definition set_layout (v : Layout.Layout) (m : Model) : Model :=
  mkModel (state m) (width m) (height m) (ready m) (err m) (status m) (processing m) (files m) (gitStatus m) (listModel m) (viewport m) (selectedFiles m) (showPreview m) (previewFocused m) (lastFileIndex m) (previewContent m) v (commitTextarea m) (commitInput m) (commitMessage m) (commitDate m) (commitState m) (headInfo m) (headModifyState m) (headMessageTextarea m).
Definition set_commitTextarea (v : TextArea) (m : Model) : Model :=
  mkModel (state m) (width m) (height m) (ready m) (err m) (status m) (processing m) (files m) (gitStatus m) (listModel m) (viewport m) (selectedFiles m) (showPreview m) (previewFocused m) (lastFileIndex m) (previewContent m) (layout m) v (commitInput m) (commitMessage m) (commitDate m) (commitState m) (headInfo m) (headModifyState m) (headMessageTextarea m).
Definition set_commitInput (v : TextArea) (m : Model) : Model :=
  mkModel (state m) (width m) (height m) (ready m) (err m) (status m) (processing m) (files m) (gitStatus m) (listModel m) (viewport m) (selectedFiles m) (showPreview m) (previewFocused m) (lastFileIndex m) (previewContent m) (layout m) (commitTextarea m) v (commitMessage m) (commitDate m) (commitState m) (headInfo m) (headModifyState m) (headMessageTextarea m).
Definition set_commitMessage (v : string) (m : Model) : Model :=
  mkModel (state m) (width m) (height m) (ready m) (err m) (status m) (processing m) (files m) (gitStatus m) (listModel m) (viewport m) (selectedFiles m) (showPreview m) (previewFocused m) (lastFileIndex m) (previewContent m) (layout m) (commitTextarea m) (commitInput m) v (commitDate m) (commitState m) (headInfo m) (headModifyState m) (headMessageTextarea m).
Definition set_commitDate (v : string) (m : Model) : Model :=
  mkModel (state m) (width m) (height m) (ready m) (err m) (status m) (processing m) (files m) (gitStatus m) (listModel m) (viewport m) (selectedFiles m) (showPreview m) (previewFocused m) (lastFileIndex m) (previewContent m) (layout m) (commitTextarea m) (commitInput m) (commitMessage m) v (commitState m) (headInfo m) (headModifyState m) (headMessageTextarea m).
Definition set_commitState (v : CommitState) (m : Model) : Model :=
  mkModel (state m) (width m) (height m) (ready m) (err m) (status m) (processing m) (files m) (gitStatus m) (listModel m) (viewport m) (selectedFiles m) (showPreview m) (previewFocused m) (lastFileIndex m) (previewContent m) (layout m) (commitTextarea m) (commitInput m) (commitMessage m) (commitDate m) v (headInfo m) (headModifyState m) (headMessageTextarea m).
Definition set_headInfo (v : option CommitInfo) (m : Model) : Model :=
  mkModel (state m) (width m) (height m) (ready m) (err m) (status m) (processing m) (files m) (gitStatus m) (listModel m) (viewport m) (selectedFiles m) (showPreview m) (previewFocused m) (lastFileIndex m) (previewContent m) (layout m) (commitTextarea m) (commitInput m) (commitMessage m) (commitDate m) (commitState m) v (headModifyState m) (headMessageTextarea m).
Definition set_headModifyState (v : HeadModifyState) (m : Model) : Model :=
  mkModel (state m) (width m) (height m) (ready m) (err m) (status m) (processing m) (files m) (gitStatus m) (listModel m) (viewport m) (selectedFiles m) (showPreview m) (previewFocused m) (lastFileIndex m) (previewContent m) (layout m) (commitTextarea m) (commitInput m) (commitMessage m) (commitDate m) (commitState m) (headInfo m) v (headMessageTextarea m).
Definition set_headMessageTextarea (v : TextArea) (m : Model) : Model :=
  mkModel (state m) (width m) (height m) (ready m) (err m) (status m) (processing m) (files m) (gitStatus m) (listModel m) (viewport m) (selectedFiles m) (showPreview m) (previewFocused m) (lastFileIndex m) (previewContent m) (layout m) (commitTextarea m) (commitInput m) (commitMessage m) (commitDate m) (commitState m) (headInfo m) (headModifyState m) v.

(** Decimal rendering of a non-negative [%d] argument. *)
Fixpoint digits_aux (fuel n : nat) (acc : string) : string :=
  match fuel with
  | O => acc
  | S fuel' =>
      let d := String (Ascii.ascii_of_nat (48 + Nat.modulo n 10)) EmptyString in
      if Nat.ltb n 10 then d +:+ acc else digits_aux fuel' (Nat.div n 10) (d +:+ acc)
  end.

Definition itoa (n : nat) : string := digits_aux (S n) n "".

(* ================================================================== *)
(** ** Messages and commands *)

(** The messages [Update] receives.  [KeyMsg k] carries [msg.String()]. *)
Inductive Msg :=
  | KeyMsg (k : string)
  | WindowSizeMsg (w h : Z)
  | GitStatusMsg (st : GitStatus)
  | ErrorMsg (e : string)
  | StatusMsg (s : string)
  | GitStageMsg (fs : list string) (e : option string)
  | GitUnstageMsg (fs : list string) (e : option string)
  | GitRefreshMsg
  | GitDiffMsg (file content : string) (e : option string)
  | GitCommitMsg (success : bool) (e : option string) (message : string)
  | GitHeadInfoMsg (info : CommitInfo)
  | GitAmendMsg (success : bool) (e : option string) (message : string)
  | OtherMsg.

(** The [tea.Cmd] values [Update] returns, one constructor per closure. *)
Inductive Cmd :=
  | CmdQuit
  | CmdClearStatus                  (* [clearStatus]: tick, then [statusMsg{""}] *)
  | CmdClearError                   (* [clearError]: tick, then [errorMsg{""}] *)
  | CmdRefreshStatus                (* [refreshStatus] *)
  | CmdFetchDiff (f : FileItem)     (* [fetchDiffCmd(f)] *)
  | CmdToggleSelection (fs : list FileItem)  (* [toggleSelectionCmd(fs)] *)
  | CmdGitRefresh                   (* the closure returning [gitRefreshMsg{}] *)
  | CmdStatusMsg (s : string)       (* a closure returning [statusMsg{s}] *)
  | CmdCommit (message date : string)
  | CmdAmendMessage (message : string)
  | CmdSoftReset
  | CmdFetchHeadInfo
  | CmdBatch (cs : list Cmd).

(** [tea.Batch]: nil commands are dropped; none left is nil, one left is
    that command. *)
Definition batch (cs : list (option Cmd)) : option Cmd :=
  match omap id cs with
  | [] => None
  | [c] => Some c
  | cs' => Some (CmdBatch cs')
  end.

(* ================================================================== *)
(** ** Key bindings ([ui.DefaultKeyMap]) and [key.Matches] *)

Definition keys_Up := ["up"; "k"].
Definition keys_Down := ["down"; "j"].
Definition keys_Home := ["home"; "g"].
Definition keys_End := ["end"; "G"].
Definition keys_Select := ["space"; "tab"].
Definition keys_SelectAll := ["a"].
Definition keys_Deselect := ["d"].
Definition keys_Apply := ["enter"].
Definition keys_Commit := ["c"].
Definition keys_ModifyHead := ["m"].
Definition keys_TogglePreview := ["p"; "P"].
Definition keys_ToggleHelp := ["?"].
Definition keys_Quit := ["q"; "ctrl+c"].

Definition matches (k : string) (binding : list string) : bool :=
  existsb (String.eqb k) binding.

(* ================================================================== *)
(** ** Selection model (main.go) *)

Definition selected_at (sel : gmap Z bool) (i : Z) : bool :=
  match sel !! i with Some b => b | None => false end.

Definition rebuild_items (m : Model) : Model :=
  set_listModel (list_SetItems (files m) (listModel m)) m.

(** [toggleSelection(index)] *)
Definition toggleSelection (index : Z) (m : Model) : Model :=
  if (index <? 0) || (Z.of_nat (length (files m)) <=? index) then m
  else
    let b := negb (selected_at (selectedFiles m) index) in
    let m := set_selectedFiles (<[index := b]> (selectedFiles m)) m in
    let m := set_files (alter (set_Selected b) (Z.to_nat index) (files m)) m in
    rebuild_items m.

Fixpoint all_true_from (i : Z) (n : nat) (sel : gmap Z bool) : gmap Z bool :=
  match n with
  | O => sel
  | S n' => all_true_from (i + 1) n' (<[i := true]> sel)
  end.

(** [selectAll] *)
Definition selectAll (m : Model) : Model :=
  let m := set_selectedFiles (all_true_from 0 (length (files m)) (selectedFiles m)) m in
  let m := set_files (map (set_Selected true) (files m)) m in
  rebuild_items m.

(** [deselectAll] *)
Definition deselectAll (m : Model) : Model :=
  let m := set_selectedFiles ∅ m in
  let m := set_files (map (set_Selected false) (files m)) m in
  rebuild_items m.

(** [getSelectedFiles] *)
Definition getSelectedFiles (m : Model) : list FileItem :=
  map snd (filter (fun '(i, _) => selected_at (selectedFiles m) (Z.of_nat i))
                  (imap pair (files m))).

(** [getCurrentFile] *)
Definition getCurrentFile (m : Model) : option FileItem :=
  let i := lm_index (listModel m) in
  if (i <? 0) || (Z.of_nat (length (files m)) <=? i) then None
  else files m !! Z.to_nat i.

(** The invariant the selection functions keep: the [Selected] flag of
    each entry of [files] mirrors the selection map at its index. *)
Fixpoint mirrored_from (sel : gmap Z bool) (i : nat) (fs : list FileItem) : bool :=
  match fs with
  | [] => true
  | f :: fs' => Bool.eqb (Selected f) (selected_at sel (Z.of_nat i)) && mirrored_from sel (S i) fs'
  end.

Definition selection_mirrored (m : Model) : bool := mirrored_from (selectedFiles m) 0 (files m).

(* ================================================================== *)
(** ** Mode transitions (main.go) *)

Definition enterCommitMode (m : Model) : Model :=
  let m := set_state StateCommitMessage m in
  let m := set_commitState CommitStateMessage m in
  let m := set_commitMessage "" m in
  let m := set_commitDate "" m in
  set_commitTextarea (ta_Focus (ta_Reset (commitTextarea m))) m.

Definition proceedToDateInput (m : Model) : Model :=
  let m := set_commitState CommitStateDate m in
  set_commitInput (ta_Focus (ta_Reset (commitInput m))) m.

Definition cancelCommit (m : Model) : Model :=
  let m := set_state StateFileList m in
  let m := set_commitMessage "" m in
  let m := set_commitDate "" m in
  let m := set_commitTextarea (ta_Blur (commitTextarea m)) m in
  set_commitInput (ta_Blur (commitInput m)) m.

Definition enterModifyHeadMode (m : Model) : Model :=
  set_headModifyState HeadModifyStateMenu (set_state StateModifyHead m).

Definition enterAmendMessageMode (m : Model) : Model :=
  let m := set_headModifyState HeadModifyStateAmendMessage m in
  let m := match headInfo m with
           | Some i => set_headMessageTextarea (ta_SetValue (Message i) (headMessageTextarea m)) m
           | None => m
           end in
  set_headMessageTextarea (ta_Focus (headMessageTextarea m)) m.

Definition cancelModifyHead (m : Model) : Model :=
  let m := set_state StateFileList m in
  let m := set_headModifyState HeadModifyStateMenu m in
  let m := set_headMessageTextarea (ta_Blur (headMessageTextarea m)) m in
  set_headInfo None m.

(** [applySelection]: the caller has checked that the selection is not
    empty.  [processing] is set on the handler's model before it is
    returned. *)
Definition applySelection (m : Model) : Model * option Cmd :=
  let selected := getSelectedFiles m in
  match selected with
  | [] => (m, Some (CmdStatusMsg "No files selected"))
  | _ =>
      let m := set_processing true m in
      (m, batch [Some (CmdToggleSelection selected); Some CmdGitRefresh])
  end.

(* ================================================================== *)
(** ** Key handlers (update.go) *)

(** The list-navigation tail shared by the up / down / home / end cases:
    move the cursor and fetch the diff of a newly selected file. *)
Definition navigate (k : string) (m : Model) : Model * option Cmd :=
  let m := set_listModel (list_UpdateKey k (listModel m)) m in
  let currentIndex := lm_index (listModel m) in
  if showPreview m && (0 <=? currentIndex) && negb (currentIndex =? lastFileIndex m) then
    let m := set_lastFileIndex currentIndex m in
    match getCurrentFile m with
    | Some f => (set_previewContent "" m, batch [None; Some (CmdFetchDiff f)])
    | None => (m, None)
    end
  else (m, None).

Definition preview_scrollable (m : Model) : bool :=
  previewFocused m && (vp_height (viewport m) <? line_count (previewContent m)).

Definition handleFileListKeys (m : Model) (k : string) : Model * option Cmd :=
  if matches k keys_Quit then (m, Some CmdQuit)
  else if matches k keys_Select then (toggleSelection (lm_index (listModel m)) m, None)
  else if matches k keys_SelectAll then (selectAll m, None)
  else if matches k keys_Deselect then (deselectAll m, None)
  else if matches k keys_TogglePreview then
    (if showPreview m && Layout.HasPreviewPane (layout m)
     then set_previewFocused (negb (previewFocused m)) m else m, None)
  else if matches k keys_ToggleHelp then
    (if AppState_eqb (state m) StateFileList
     then set_state StateHelp m else set_state StateFileList m, None)
  else if matches k keys_Up then
    (if preview_scrollable m then (set_viewport (vp_LineUp 3 (viewport m)) m, None)
     else navigate k m)
  else if matches k keys_Down then
    (if preview_scrollable m then (set_viewport (vp_LineDown 3 (viewport m)) m, None)
     else navigate k m)
  else if matches k keys_Home then navigate k m
  else if matches k keys_End then navigate k m
  else if matches k keys_Apply then
    let selected := getSelectedFiles m in
    match selected with
    | [] => (set_status "No files selected" m, Some CmdClearStatus)
    | _ =>
        let m := set_status ("Processing " +:+ itoa (length selected) +:+ " file(s)...") m in
        applySelection m
    end
  else if matches k keys_Commit then
    (if Nat.eqb (StagedCount (gitStatus m)) 0
     then (set_status "No files staged" m, Some CmdClearStatus)
     else (enterCommitMode m, None))
  else if matches k keys_ModifyHead then
    let m := enterModifyHeadMode m in
    (set_processing true m, Some CmdFetchHeadInfo)
  else (m, None).

Definition handleCommitMessageKeys (m : Model) (k : string) : Model * option Cmd :=
  if String.eqb k "ctrl+d" then
    let m := set_commitMessage (ta_value (commitTextarea m)) m in
    if String.eqb (commitMessage m) "" then
      (set_err "Commit message cannot be empty" m, Some CmdClearError)
    else (proceedToDateInput m, None)
  else if String.eqb k "esc" then (cancelCommit m, None)
  else (set_commitTextarea (ta_Update k (commitTextarea m)) m, None).

Definition handleCommitDateKeys (m : Model) (k : string) : Model * option Cmd :=
  if String.eqb k "enter" then
    let m := set_commitDate (ta_value (commitInput m)) m in
    let m := set_commitInput (ta_Blur (commitInput m)) m in
    let m := set_commitTextarea (ta_Blur (commitTextarea m)) m in
    (m, Some (CmdCommit (commitMessage m) (commitDate m)))
  else if String.eqb k "esc" then
    let m := set_commitState CommitStateMessage m in
    let m := set_commitTextarea (ta_Focus (commitTextarea m)) m in
    (set_commitInput (ta_Reset (commitInput m)) m, None)
  else (set_commitInput (ta_Update k (commitInput m)) m, None).

Definition handleCommitKeys (m : Model) (k : string) : Model * option Cmd :=
  match commitState m with
  | CommitStateMessage => handleCommitMessageKeys m k
  | CommitStateDate => handleCommitDateKeys m k
  | CommitStateConfirm => (m, None)
  end.

Definition handleHelpKeys (m : Model) (k : string) : Model * option Cmd :=
  if matches k keys_ToggleHelp || matches k keys_Quit
  then (set_state StateFileList m, None) else (m, None).

Definition handleHeadMenuKeys (m : Model) (k : string) : Model * option Cmd :=
  if String.eqb k "m" then (enterAmendMessageMode m, None)
  else if String.eqb k "f" then (set_processing true m, Some CmdSoftReset)
  else if String.eqb k "esc" || String.eqb k "q" then (cancelModifyHead m, None)
  else (m, None).

Definition handleHeadAmendMessageKeys (m : Model) (k : string) : Model * option Cmd :=
  if String.eqb k "ctrl+d" then
    let newMessage := ta_value (headMessageTextarea m) in
    if String.eqb newMessage "" then
      (set_err "Commit message cannot be empty" m, Some CmdClearError)
    else
      let m := set_processing true m in
      let m := set_headMessageTextarea (ta_Blur (headMessageTextarea m)) m in
      (m, Some (CmdAmendMessage newMessage))
  else if String.eqb k "esc" then
    let m := set_headModifyState HeadModifyStateMenu m in
    (set_headMessageTextarea (ta_Reset (ta_Blur (headMessageTextarea m))) m, None)
  else (set_headMessageTextarea (ta_Update k (headMessageTextarea m)) m, None).

Definition handleHeadAmendFilesKeys (m : Model) (k : string) : Model * option Cmd :=
  (cancelModifyHead m, None).

Definition handleModifyHeadKeys (m : Model) (k : string) : Model * option Cmd :=
  match headModifyState m with
  | HeadModifyStateMenu => handleHeadMenuKeys m k
  | HeadModifyStateAmendMessage => handleHeadAmendMessageKeys m k
  | HeadModifyStateAmendFiles => handleHeadAmendFilesKeys m k
  end.

Definition handleKeyMsg (m : Model) (k : string) : Model * option Cmd :=
  match state m with
  | StateFileList => handleFileListKeys m k
  | StateCommitMessage | StateCommitDate => handleCommitKeys m k
  | StateModifyHead => handleModifyHeadKeys m k
  | StateHelp => handleHelpKeys m k
  end.

(* ================================================================== *)
(** ** [Model.Update] (update.go) *)

Definition error_text (e : option string) : string :=
  match e with Some s => s | None => "" end.

(** The tail of [Update] reached by messages no case handles: the list
    sees the message (a non-key message leaves it as it is), then a
    changed cursor triggers a diff fetch; the viewport's own update is
    discarded by the source ([_, vpCmd := ...]). *)
Definition update_fallthrough (m : Model) : Model * option Cmd :=
  if showPreview m && ready m && AppState_eqb (state m) StateFileList then
    let currentIndex := lm_index (listModel m) in
    if (0 <=? currentIndex) && negb (currentIndex =? lastFileIndex m) then
      let m := set_lastFileIndex currentIndex m in
      match getCurrentFile m with
      | Some f => (set_previewContent "" m, Some (CmdFetchDiff f))
      | None => (m, None)
      end
    else (m, None)
  else (m, None).

Definition update (m : Model) (msg : Msg) : Model * option Cmd :=
  match msg with
  | KeyMsg k =>
      if negb (String.eqb (err m) "") then
        (if matches k keys_Quit then (m, Some CmdQuit) else (m, None))
      else handleKeyMsg m k
  | WindowSizeMsg w h =>
      let m := set_width w m in
      let m := set_height h m in
      let m := set_ready true m in
      let m := set_layout (Layout.NewLayout (width m) (height m)) m in
      let paneHeight := Layout.ListHeight (layout m) in
      let viewportHeight := paneHeight - 3 in
      let viewportHeight := if viewportHeight <? 1 then 1 else viewportHeight in
      let '(lw, vw) :=
        if Layout.HasPreviewPane (layout m) && showPreview m
        then (Layout.ListWidth (layout m) - 4, Layout.PreviewWidth (layout m) - 4)
        else (width m - 4, width m - 4) in
      let m := set_listModel (list_SetHeight paneHeight (list_SetWidth lw (listModel m))) m in
      let m := set_viewport (vp_SetSize vw viewportHeight (viewport m)) m in
      if showPreview m && (0 <? length (files m))%nat then
        match getCurrentFile m with
        | Some f => (m, Some (CmdFetchDiff f))
        | None => (m, None)
        end
      else (m, None)
  | GitStatusMsg st =>
      let m := set_gitStatus st m in
      let m := set_files (AllFiles st) m in
      let m := set_listModel (list_SetItems (files m) (listModel m)) m in
      let m := if (lm_index (listModel m) <? 0) && (0 <? length (files m))%nat
               then set_listModel (list_Select 0 (listModel m)) m else m in
      let fallback := (set_lastFileIndex (-1) m, None) in
      if showPreview m && (0 <? length (files m))%nat && ready m
         && (0 <=? lm_index (listModel m)) then
        let m := set_lastFileIndex (lm_index (listModel m)) m in
        match getCurrentFile m with
        | Some f => (m, Some (CmdFetchDiff f))
        | None => (set_lastFileIndex (-1) m, None)
        end
      else fallback
  | ErrorMsg e =>
      let m := set_err e m in
      if String.eqb e "" then (m, None) else (m, Some CmdClearError)
  | StatusMsg s =>
      let m := set_status s m in
      if String.eqb s "" then (m, None) else (m, Some CmdClearStatus)
  | GitStageMsg fs e =>
      let m := set_processing false m in
      match e with
      | Some e' => (set_err e' m, Some CmdClearError)
      | None =>
          let m := set_status ("Staged " +:+ itoa (length fs) +:+ " file(s)") m in
          let m := deselectAll m in
          (m, batch [Some CmdRefreshStatus; Some CmdClearStatus])
      end
  | GitUnstageMsg fs e =>
      let m := set_processing false m in
      match e with
      | Some e' => (set_err e' m, Some CmdClearError)
      | None =>
          let m := set_status ("Unstaged " +:+ itoa (length fs) +:+ " file(s)") m in
          let m := deselectAll m in
          (m, batch [Some CmdRefreshStatus; Some CmdClearStatus])
      end
  | GitRefreshMsg => (m, Some CmdRefreshStatus)
  | GitDiffMsg file content e =>
      let m := match e with
               | Some e' => set_previewContent ("Error loading diff: " +:+ e') m
               | None => set_previewContent content m
               end in
      (set_viewport (vp_SetContent (previewContent m) (viewport m)) m, None)
  | GitCommitMsg success e message =>
      match e with
      | Some e' => (set_err ("Commit failed: " +:+ e') m, Some CmdClearError)
      | None =>
          let m := set_status message m in
          let m := set_state StateFileList m in
          let m := set_commitMessage "" m in
          let m := set_commitDate "" m in
          (m, batch [Some CmdRefreshStatus; Some CmdClearStatus])
      end
  | GitHeadInfoMsg info => (set_headInfo (Some info) m, None)
  | GitAmendMsg success e message =>
      match e with
      | Some e' => (set_err ("Amendment failed: " +:+ e') m, Some CmdClearError)
      | None =>
          let m := set_status message m in
          let m := set_state StateFileList m in
          let m := set_headInfo None m in
          (m, batch [Some CmdRefreshStatus; Some CmdClearStatus])
      end
  | OtherMsg => update_fallthrough m
  end.

(* ================================================================== *)
(** ** Background commands (commands.go, main.go)

    The git client and the file system are an oracle [Backend]; each
    command returns the message it posts, and the commands that touch the
    backend also return the calls they made, in order. *)

Inductive Result (A : Type) := Ok (a : A) | Err (e : string).
Arguments Ok {A} a.
Arguments Err {A} e.

Record Backend := mkBackend {
  be_Status : Result GitStatus;
  be_Stage : list string -> option string;
  be_Unstage : list string -> option string;
  be_Diff : string -> bool -> Result string;
  be_ReadFile : string -> Result (list Byte.byte);
  be_ValidateCommitDate : string -> Result string;
  be_Commit : string -> string -> option string;
  be_AmendMessage : string -> option string;
  be_SoftResetHead : option string;
  be_GetHeadCommitInfo : Result CommitInfo
}.

Inductive BackendCall :=
  | CallStage (paths : list string)
  | CallUnstage (paths : list string)
  | CallDiff (path : string) (staged : bool)
  | CallReadFile (path : string).

Definition is_diff_call (c : BackendCall) : bool :=
  match c with CallDiff _ _ => true | _ => false end.

(** [string(bytes)]: the bytes read as characters. *)
Definition bytes_to_string (bs : list Byte.byte) : string :=
  fold_right (fun b s => String (Ascii.ascii_of_byte b) s) EmptyString bs.

(** [stageFilesCmd(files)]: only the files not staged yet. *)
Definition stageFilesCmd (be : Backend) (fs : list FileItem) : Msg * list BackendCall :=
  let filePaths := map Path (filter (fun f => negb (FileStatus_eqb (Status f) StatusStaged)) fs) in
  match filePaths with
  | [] => (StatusMsg "No files to stage", [])
  | _ =>
      match be_Stage be filePaths with
      | Some e => (ErrorMsg ("Failed to stage files: " +:+ e), [CallStage filePaths])
      | None => (GitStageMsg filePaths None, [CallStage filePaths])
      end
  end.

(** [unstageFilesCmd(files)]: only the staged files. *)
Definition unstageFilesCmd (be : Backend) (fs : list FileItem) : Msg * list BackendCall :=
  let filePaths := map Path (filter (fun f => FileStatus_eqb (Status f) StatusStaged) fs) in
  match filePaths with
  | [] => (StatusMsg "No files to unstage", [])
  | _ =>
      match be_Unstage be filePaths with
      | Some e => (ErrorMsg ("Failed to unstage files: " +:+ e), [CallUnstage filePaths])
      | None => (GitUnstageMsg filePaths None, [CallUnstage filePaths])
      end
  end.

(** [toggleSelectionCmd(files)]: stage the non-staged files when they
    outnumber the staged ones, otherwise unstage the staged ones. *)
Definition toggleSelectionCmd (be : Backend) (fs : list FileItem) : Msg * list BackendCall :=
  let staged := map Path (filter (fun f => FileStatus_eqb (Status f) StatusStaged) fs) in
  let unstaged := map Path (filter (fun f => negb (FileStatus_eqb (Status f) StatusStaged)) fs) in
  if (length staged <? length unstaged)%nat then
    match be_Stage be unstaged with
    | Some e => (ErrorMsg ("Failed to stage files: " +:+ e), [CallStage unstaged])
    | None => (StatusMsg ("Staged " +:+ itoa (length unstaged) +:+ " file(s)"), [CallStage unstaged])
    end
  else
    match be_Unstage be staged with
    | Some e => (ErrorMsg ("Failed to unstage files: " +:+ e), [CallUnstage staged])
    | None => (StatusMsg ("Unstaged " +:+ itoa (length staged) +:+ " file(s)"), [CallUnstage staged])
    end.

(** The diff cache: [map[string]string], shared by all copies of [Model]. *)
Abbreviation DiffCache := (gmap string string).

Definition binary_placeholder : string := "[BINARY] File cannot be previewed".

(** [fetchDiffCmd(file)], run against the cache as it is when the closure
    runs; returns the message, the cache afterwards and the backend calls. *)
Definition fetchDiffCmd (be : Backend) (cache : DiffCache) (file : FileItem)
    : Msg * DiffCache * list BackendCall :=
  match cache !! Path file with
  | Some content => (GitDiffMsg (Path file) content None, cache, [])
  | None =>
    let step1 : (string * option string * list BackendCall) + Msg :=
      match Status file with
      | StatusStaged =>
          match be_Diff be (Path file) true with
          | Ok c => inl (c, None, [CallDiff (Path file) true])
          | Err e => inl ("", Some e, [CallDiff (Path file) true])
          end
      | StatusUnstaged =>
          match be_Diff be (Path file) false with
          | Ok c => inl (c, None, [CallDiff (Path file) false])
          | Err e => inl ("", Some e, [CallDiff (Path file) false])
          end
      | StatusUntracked =>
          match be_ReadFile be (Path file) with
          | Err e => inr (GitDiffMsg (Path file) ("Error reading file: " +:+ e) None)
          | Ok bs =>
              inl (if Binary.isBinaryFile bs then binary_placeholder else bytes_to_string bs,
                   None, [CallReadFile (Path file)])
          end
      end in
    match step1 with
    | inr msg => (msg, cache, [CallReadFile (Path file)])
    | inl (content, Some e, calls) =>
        (GitDiffMsg (Path file) ("Error loading diff: " +:+ e) None, cache, calls)
    | inl (content, None, calls) =>
        let '(content, calls) :=
          if String.eqb content "" && negb (FileStatus_eqb (Status file) StatusUntracked) then
            match be_ReadFile be (Path file) with
            | Ok bs =>
                (if Binary.isBinaryFile bs then binary_placeholder else bytes_to_string bs,
                 calls ++ [CallReadFile (Path file)])
            | Err e =>
                ("(File has no changes)" +:+ String (Ascii.ascii_of_nat 10)
                   (String (Ascii.ascii_of_nat 10) EmptyString) +:+ "Could not read file: " +:+ e,
                 calls ++ [CallReadFile (Path file)])
            end
          else (content, calls) in
        (GitDiffMsg (Path file) content None, <[Path file := content]> cache, calls)
    end
  end.

(** [commitCmd(message, date)] *)
Definition commitCmd (be : Backend) (message date : string) : Msg :=
  let validated : Result string :=
    if String.eqb date "" then Ok "" else be_ValidateCommitDate be date in
  match validated with
  | Err e => GitCommitMsg false (Some e) ""
  | Ok validatedDate =>
      match be_Commit be message validatedDate with
      | Some e => GitCommitMsg false (Some e) ""
      | None => GitCommitMsg true None "[OK] Commit created successfully"
      end
  end.

(** [softResetHeadCmd()] *)
Definition softResetHeadCmd (be : Backend) : Msg :=
  match be_SoftResetHead be with
  | Some e => GitAmendMsg false (Some e) ""
  | None => GitAmendMsg true None "[OK] HEAD soft reset successfully. Changes staged."
  end.

(** [refreshStatusCmd()] *)
Definition refreshStatusCmd (be : Backend) : Msg :=
  match be_Status be with
  | Err e => ErrorMsg ("Failed to refresh status: " +:+ e)
  | Ok st => GitStatusMsg st
  end.

(** [amendMessageCmd(message)] *)
Definition amendMessageCmd (be : Backend) (message : string) : Msg :=
  if String.eqb message "" then GitAmendMsg false (Some "commit message cannot be empty") ""
  else match be_AmendMessage be message with
       | Some e => GitAmendMsg false (Some e) ""
       | None => GitAmendMsg true None "[OK] Commit message amended successfully"
       end.

(** [fetchHeadInfo()] *)
Definition fetchHeadInfoCmd (be : Backend) : Msg :=
  match be_GetHeadCommitInfo be with
  | Err e => ErrorMsg ("Failed to get HEAD info: " +:+ e)
  | Ok info => GitHeadInfoMsg info
  end.

(* ================================================================== *)
(** ** The event loop

    Bubble Tea runs each command of a batch on its own and feeds the
    messages back to [Update] one at a time.  [run_leaf] runs one
    command; the timers of [clearStatus] / [clearError] are taken to have
    fired.  [drain] is one schedule of the loop: commands run in the order
    they were returned, their messages are queued in that order. *)

Fixpoint flatten_cmd (c : Cmd) : list Cmd :=
  match c with
  | CmdBatch cs =>
      (fix go (l : list Cmd) : list Cmd :=
         match l with [] => [] | c' :: l' => flatten_cmd c' ++ go l' end) cs
  | _ => [c]
  end.

Definition run_leaf (be : Backend) (cache : DiffCache) (c : Cmd)
    : option Msg * DiffCache * list BackendCall :=
  match c with
  | CmdQuit => (None, cache, [])
  | CmdClearStatus => (Some (StatusMsg ""), cache, [])
  | CmdClearError => (Some (ErrorMsg ""), cache, [])
  | CmdRefreshStatus => (Some (refreshStatusCmd be), cache, [])
  | CmdFetchDiff f =>
      let '(msg, cache', calls) := fetchDiffCmd be cache f in (Some msg, cache', calls)
  | CmdToggleSelection fs =>
      let '(msg, calls) := toggleSelectionCmd be fs in (Some msg, cache, calls)
  | CmdGitRefresh => (Some GitRefreshMsg, cache, [])
  | CmdStatusMsg s => (Some (StatusMsg s), cache, [])
  | CmdCommit message date => (Some (commitCmd be message date), cache, [])
  | CmdAmendMessage message => (Some (amendMessageCmd be message), cache, [])
  | CmdSoftReset => (Some (softResetHeadCmd be), cache, [])
  | CmdFetchHeadInfo => (Some (fetchHeadInfoCmd be), cache, [])
  | CmdBatch _ => (None, cache, [])
  end.

Fixpoint run_all (be : Backend) (cache : DiffCache) (cs : list Cmd)
    : list Msg * DiffCache * list BackendCall :=
  match cs with
  | [] => ([], cache, [])
  | c :: cs' =>
      let '(om, cache1, calls1) := run_leaf be cache c in
      let '(msgs, cache2, calls2) := run_all be cache1 cs' in
      (option_list om ++ msgs, cache2, calls1 ++ calls2)
  end.

Record LoopState := mkLoopState {
  ls_model : Model;
  ls_cache : DiffCache;
  ls_calls : list BackendCall
}.

Fixpoint drain (be : Backend) (fuel : nat) (s : LoopState) (q : list Msg) : LoopState :=
  match fuel, q with
  | O, _ | _, [] => s
  | S fuel', msg :: q' =>
      let '(m', oc) := update (ls_model s) msg in
      let cs := match oc with Some c => flatten_cmd c | None => [] end in
      let '(msgs, cache', calls') := run_all be (ls_cache s) cs in
      drain be fuel' (mkLoopState m' cache' (ls_calls s ++ calls')) (q' ++ msgs)
  end.

(** External events (keys, resizes), each followed by the messages it
    causes until the queue is empty. *)
Definition run_script (be : Backend) (s : LoopState) (events : list Msg) : LoopState :=
  fold_left (fun s ev => drain be 50 s [ev]) events s.

(* ================================================================== *)
(** ** The [strings] functions the git client relies on

    Strings are Go byte strings: a Rocq [string] is a list of bytes.
    [TrimSpace] works on the byte values ([to_codes]) and recognises the
    UTF-8 encodings of the runes [unicode.IsSpace] accepts. *)

Module GoStrings.

Open Scope nat_scope.

Definition newline : Ascii.ascii := Ascii.ascii_of_nat 10.
Definition quote : Ascii.ascii := Ascii.ascii_of_nat 34.

Definition to_codes (s : string) : list nat := map Ascii.nat_of_ascii (String.list_ascii_of_string s).
Definition of_codes (l : list nat) : string := String.string_of_list_ascii (map Ascii.ascii_of_nat l).

Definition is_ascii_space (n : nat) : bool := ((9 <=? n) && (n <=? 13)) || (n =? 32).

(** One white-space rune at the head of the bytes, and the bytes after it:
    U+0009..U+000D, U+0020 (one byte), U+0085, U+00A0 (C2 85, C2 A0),
    U+1680 (E1 9A 80), U+2000..U+200A, U+2028, U+2029, U+202F
    (E2 80 80..8A, A8, A9, AF), U+205F (E2 81 9F), U+3000 (E3 80 80). *)
Definition strip_space_head (l : list nat) : option (list nat) :=
  match l with
  | [] => None
  | a :: r =>
    if is_ascii_space a then Some r
    else if a =? 194 then
      match r with
      | b :: r' => if (b =? 133) || (b =? 160) then Some r' else None
      | [] => None
      end
    else
      match r with
      | b :: c :: r' =>
          if ((a =? 225) && (b =? 154) && (c =? 128))
             || ((a =? 226) && (b =? 128)
                 && (((128 <=? c) && (c <=? 138)) || (c =? 168) || (c =? 169) || (c =? 175)))
             || ((a =? 226) && (b =? 129) && (c =? 159))
             || ((a =? 227) && (b =? 128) && (c =? 128))
          then Some r' else None
      | _ => None
      end
  end.

(** The same at the end of the bytes, which are given reversed: the last
    rune as [utf8.DecodeLastRuneInString] reads it. *)
Definition strip_space_tail_rev (l : list nat) : option (list nat) :=
  match l with
  | [] => None
  | a :: r =>
    if is_ascii_space a then Some r
    else
      match r with
      | [] => None
      | b :: r' =>
          if (b =? 194) && ((a =? 133) || (a =? 160)) then Some r'
          else
            match r' with
            | c :: r'' =>
                if ((c =? 225) && (b =? 154) && (a =? 128))
                   || ((c =? 226) && (b =? 128)
                       && (((128 <=? a) && (a <=? 138)) || (a =? 168) || (a =? 169) || (a =? 175)))
                   || ((c =? 226) && (b =? 129) && (a =? 159))
                   || ((c =? 227) && (b =? 128) && (a =? 128))
                then Some r'' else None
            | [] => None
            end
      end
  end.

(** Strip runes with [strip] while it applies; each step removes at least
    one byte, so [length l] steps suffice. *)
Fixpoint trim_head (fuel : nat) (strip : list nat -> option (list nat)) (l : list nat) : list nat :=
  match fuel with
  | O => l
  | S fuel' => match strip l with Some r => trim_head fuel' strip r | None => l end
  end.

Definition TrimLeftSpace (l : list nat) : list nat := trim_head (length l) strip_space_head l.
Definition TrimRightSpace (l : list nat) : list nat :=
  rev (trim_head (length l) strip_space_tail_rev (rev l)).

(** [strings.TrimSpace] *)
Definition TrimSpace (s : string) : string :=
  of_codes (TrimRightSpace (TrimLeftSpace (to_codes s))).

Definition space_at_start (s : string) : bool :=
  match strip_space_head (to_codes s) with Some _ => true | None => false end.
Definition space_at_end (s : string) : bool :=
  match strip_space_tail_rev (rev (to_codes s)) with Some _ => true | None => false end.

(** [strings.Split(s, "\n")] *)
Fixpoint Split_nl (s : string) : list string :=
  match s with
  | EmptyString => [""]
  | String c s' =>
      let rest := Split_nl s' in
      if Ascii.eqb c newline then "" :: rest
      else match rest with
           | h :: t => String c h :: t
           | [] => [String c ""]
           end
  end.

(** [strings.Join(lines, "\n")] *)
Fixpoint Join_nl (ls : list string) : string :=
  match ls with
  | [] => ""
  | [l] => l
  | l :: ls' => l +:+ String newline (Join_nl ls')
  end.

Fixpoint drop_quotes (l : list Ascii.ascii) : list Ascii.ascii :=
  match l with
  | c :: l' => if Ascii.eqb c quote then drop_quotes l' else l
  | [] => []
  end.

(** [strings.Trim] with a cutset of one double-quote character: every
    leading and trailing double quote is removed. *)
Definition TrimQuote (s : string) : string :=
  String.string_of_list_ascii (rev (drop_quotes (rev (drop_quotes (String.list_ascii_of_string s))))).

(** [strings.Contains(s, substr)] *)
Fixpoint Contains (s substr : string) : bool :=
  String.prefix substr s ||
  match s with EmptyString => false | String _ s' => Contains s' substr end.

End GoStrings.

(* ================================================================== *)
(** ** [parseStatusOutput] (git/status.go) *)

Definition space_char : Ascii.ascii := Ascii.ascii_of_nat 32.
Definition question_char : Ascii.ascii := Ascii.ascii_of_nat 63.

Definition zero_GitStatus : GitStatus := mkGitStatus [] [] [] "" false.

Definition add_Staged (p : string) (s : GitStatus) : GitStatus :=
  mkGitStatus (Staged s ++ [p]) (Unstaged s) (Untracked s) (Branch s) (IsClean s).
Definition add_Unstaged (p : string) (s : GitStatus) : GitStatus :=
  mkGitStatus (Staged s) (Unstaged s ++ [p]) (Untracked s) (Branch s) (IsClean s).
Definition add_Untracked (p : string) (s : GitStatus) : GitStatus :=
  mkGitStatus (Staged s) (Unstaged s) (Untracked s ++ [p]) (Branch s) (IsClean s).

(** The loop body for one line. *)
Definition parseLine (status : GitStatus) (line : string) : GitStatus :=
  if String.eqb line "" then status
  else if (String.length line <? 4)%nat then status
  else
    match line with
    | String x (String y (String _ filepath)) =>
        let filepath := GoStrings.TrimQuote filepath in
        if negb (Ascii.eqb x space_char) && negb (Ascii.eqb x question_char)
        then add_Staged filepath status
        else if negb (Ascii.eqb y space_char) then add_Unstaged filepath status
        else if Ascii.eqb x question_char && Ascii.eqb y question_char
        then add_Untracked filepath status
        else status
    | _ => status
    end.

Definition parseStatusOutput (output : string) : GitStatus :=
  fold_left parseLine (GoStrings.Split_nl (GoStrings.TrimSpace output)) zero_GitStatus.

(* ================================================================== *)
(** ** The git client ([Client] of package [git]: unnamed part_003 and
       [Status] of git/status.go)

    [exec.CommandContext("git", args...).CombinedOutput()] is the oracle
    [Proc]: for the arguments, the process error ([None] when git exits
    with status 0) and the combined output.  A client operation is a
    [GitM] computation, which also records the git invocations it makes,
    in order. *)

Module Client.

Definition Proc : Type := list string -> option string * string.

Definition GitM (A : Type) : Type := Proc -> A * list (list string).

Global Instance GitM_ret : MRet GitM := fun A a _ => (a, []).
Global Instance GitM_bind : MBind GitM := fun A B k m p =>
  let '(a, l1) := m p in let '(b, l2) := k a p in (b, l1 ++ l2).

(** [execGit(args...)]: on failure the output is dropped and the error
    reads ["git <args[0]> failed: <err>\n<output>"]; every call site passes
    at least one argument. *)
Definition execGit (args : list string) : GitM (string * option string) :=
  fun p =>
    (match p args with
     | (Some e, output) =>
         ("", Some ("git " +:+ (match args with a :: _ => a | [] => "" end) +:+ " failed: "
                    +:+ e +:+ String GoStrings.newline output))
     | (None, output) => (output, None)
     end, [args]).

(** [CurrentBranch()]: one trailing newline is removed. *)
Definition strip_trailing_newline (s : string) : string :=
  match rev (String.list_ascii_of_string s) with
  | c :: r => if Ascii.eqb c GoStrings.newline then String.string_of_list_ascii (rev r) else s
  | [] => s
  end.

Definition CurrentBranch : GitM (string * option string) :=
  '(output, err) ← execGit ["branch"; "--show-current"];
  mret (match err with
        | Some e => ("", Some e)
        | None => (strip_trailing_newline output, None)
        end).

(** [Stage(files...)] *)
Definition Stage (files : list string) : GitM (option string) :=
  match files with
  | [] => mret None
  | _ =>
      '(_, err) ← execGit (["add"; "--"] ++ files);
      mret (match err with Some e => Some ("failed to stage files: " +:+ e) | None => None end)
  end.

(** [Unstage(files...)] *)
Definition Unstage (files : list string) : GitM (option string) :=
  match files with
  | [] => mret None
  | _ =>
      '(_, err) ← execGit (["reset"; "HEAD"; "--"] ++ files);
      mret (match err with Some e => Some ("failed to unstage files: " +:+ e) | None => None end)
  end.

Definition diff_args (file : string) (staged : bool) : list string :=
  ["diff"; "--color=always"] ++ (if staged then ["--cached"] else []) ++ ["--"; file].

(** [Diff(file, staged)]: an error mentioning "exit status 1" is taken
    for git's report that there are differences. *)
Definition Diff (file : string) (staged : bool) : GitM (string * option string) :=
  '(output, err) ← execGit (diff_args file staged);
  mret (match err with
        | Some e => if GoStrings.Contains e "exit status 1" then (output, None) else ("", Some e)
        | None => (output, None)
        end).

Definition commit_args (message date : string) : list string :=
  ["commit"; "-m"; message] ++ (if String.eqb date "" then [] else ["--date"; date]).

(** [Commit(message, date)] *)
Definition Commit (message date : string) : GitM (option string) :=
  if String.eqb message "" then mret (Some "commit message cannot be empty")
  else
    '(_, err) ← execGit (commit_args message date);
    mret (match err with Some e => Some ("failed to create commit: " +:+ e) | None => None end).

(** [AmendMessage(message)] *)
Definition AmendMessage (message : string) : GitM (option string) :=
  if String.eqb message "" then mret (Some "commit message cannot be empty")
  else
    '(_, err) ← execGit ["commit"; "--amend"; "-m"; message];
    mret (match err with Some e => Some ("failed to amend commit: " +:+ e) | None => None end).

(** [SoftResetHead()] *)
Definition SoftResetHead : GitM (option string) :=
  '(_, err) ← execGit ["reset"; "--soft"; "HEAD~1"];
  mret (match err with Some e => Some ("failed to soft reset HEAD: " +:+ e) | None => None end).

Definition head_info_args : list (list string) :=
  [["rev-parse"; "--short"; "HEAD"]; ["rev-parse"; "HEAD"];
   ["log"; "-1"; "--pretty=format:%s"; "HEAD"]; ["log"; "-1"; "--pretty=format:%an"; "HEAD"];
   ["log"; "-1"; "--pretty=format:%ar"; "HEAD"]; ["branch"; "--show-current"];
   ["branch"; "-r"; "--contains"; "HEAD"]].

(** [GetHeadCommitInfo()] *)
Definition GetHeadCommitInfo : GitM (Result CommitInfo) :=
  '(shortHash, err) ← execGit ["rev-parse"; "--short"; "HEAD"];
  match err with Some e => mret (Err ("failed to get HEAD hash: " +:+ e)) | None =>
  let shortHash := GoStrings.TrimSpace shortHash in
  '(fullHash, err) ← execGit ["rev-parse"; "HEAD"];
  match err with Some e => mret (Err ("failed to get HEAD full hash: " +:+ e)) | None =>
  let fullHash := GoStrings.TrimSpace fullHash in
  '(message, err) ← execGit ["log"; "-1"; "--pretty=format:%s"; "HEAD"];
  match err with Some e => mret (Err ("failed to get commit message: " +:+ e)) | None =>
  let message := GoStrings.TrimSpace message in
  '(author, err) ← execGit ["log"; "-1"; "--pretty=format:%an"; "HEAD"];
  match err with Some e => mret (Err ("failed to get author: " +:+ e)) | None =>
  let author := GoStrings.TrimSpace author in
  '(date, err) ← execGit ["log"; "-1"; "--pretty=format:%ar"; "HEAD"];
  match err with Some e => mret (Err ("failed to get date: " +:+ e)) | None =>
  let date := GoStrings.TrimSpace date in
  '(branch, err) ← CurrentBranch;
  match err with Some e => mret (Err ("failed to get current branch: " +:+ e)) | None =>
  let remoteBranch := "origin/" +:+ branch in
  '(output, err) ← execGit ["branch"; "-r"; "--contains"; "HEAD"];
  let isPushed :=
    match err with None => GoStrings.Contains output remoteBranch | Some _ => false end in
  mret (Ok (mkCommitInfo fullHash shortHash message author date isPushed))
  end end end end end end.

(** [Status()]; the error of [CurrentBranch] is ignored. *)
Definition Status : GitM (Result GitStatus) :=
  '(output, err) ← execGit ["status"; "--porcelain"; "-u"];
  match err with
  | Some e => mret (Err e)
  | None =>
      let status := parseStatusOutput output in
      '(branch, _) ← CurrentBranch;
      mret (Ok (mkGitStatus (Staged status) (Unstaged status) (Untracked status) branch
                 (Nat.eqb (length (Staged status)) 0 && Nat.eqb (length (Unstaged status)) 0
                  && Nat.eqb (length (Untracked status)) 0)))
  end.

(** The backend of the application on this client: [readFile] is
    [os.ReadFile], [validateDate] is [git.ValidateCommitDate] (whose
    [time.Parse] is not modelled). *)
Definition backend (p : Proc) (readFile : string -> Result (list Byte.byte))
    (validateDate : string -> Result string) : Backend :=
  mkBackend
    (fst (Status p))
    (fun fs => fst (Stage fs p))
    (fun fs => fst (Unstage fs p))
    (fun f s => match fst (Diff f s p) with
                | (_, Some e) => Err e
                | (output, None) => Ok output
                end)
    readFile validateDate
    (fun m d => fst (Commit m d p))
    (fun m => fst (AmendMessage m p))
    (fst (SoftResetHead p))
    (fst (GetHeadCommitInfo p)).

End Client.

(* ================================================================== *)
(** ** Concrete scenarios *)

Definition empty_status : GitStatus := mkGitStatus [] [] [] "main" true.

(** A model as [NewModel] builds it, after the first window-size message. *)
Definition model0 : Model :=
  mkModel StateFileList 120 40 true "" "" false
    [] empty_status
    (mkListModel [] 0 56 33) (mkViewport "" 54 30 0)
    ∅ true false (-1)
    "" (Layout.NewLayout 120 40)
    (mkTextArea "" false) (mkTextArea "" false) "" "" CommitStateMessage
    None HeadModifyStateMenu (mkTextArea "" false).

Definition status_a_unstaged : GitStatus := mkGitStatus [] ["a.txt"] [] "main" false.
Definition status_a_staged : GitStatus := mkGitStatus ["a.txt"] [] [] "main" false.

(** A backend on which every operation succeeds, whose status is [st]. *)
Definition ok_backend (st : GitStatus) : Backend :=
  mkBackend (Ok st) (fun _ => None) (fun _ => None)
    (fun p _ => Ok ("diff of " +:+ p)) (fun _ => Ok [])
    (fun d => Ok d) (fun _ _ => None) (fun _ => None) None
    (Err "no HEAD").

Definition file_a_unstaged : FileItem := NewFileItem "a.txt" StatusUnstaged.
Definition file_a_staged : FileItem := NewFileItem "a.txt" StatusStaged.

(** The file list after the status [{unstaged: ["a.txt"]}] arrived. *)
Definition model_a : Model := fst (update model0 (GitStatusMsg status_a_unstaged)).


(** The end-to-end scenario of the selection model: status
    [{unstaged: ["a.txt"]}], toggle the selection on [a.txt], apply; the
    backend then reports [a.txt] as staged. *)
Definition apply_scenario : LoopState :=
  run_script (ok_backend status_a_staged) (mkLoopState model0 ∅ [])
    [GitStatusMsg status_a_unstaged; KeyMsg "tab"; KeyMsg "enter"].

(** Two unstaged files, the cursor on the second one. *)
Definition model_ab : Model :=
  let m := fst (update model0 (GitStatusMsg (mkGitStatus [] ["a.txt"; "b.txt"] [] "main" false))) in
  set_listModel (list_Select 1 (listModel m)) (set_lastFileIndex 1 m).

(** The HEAD menu, entered from the file list. *)
Definition model_head_menu : Model :=
  fst (update model0 (KeyMsg "m")).

Definition soft_reset_failing_backend : Backend :=
  mkBackend (Ok empty_status) (fun _ => None) (fun _ => None)
    (fun p _ => Ok "") (fun _ => Ok []) (fun d => Ok d) (fun _ _ => None)
    (fun _ => None) (Some "no parent commit") (Err "no HEAD").

Definition diff_failing_backend : Backend :=
  mkBackend (Ok empty_status) (fun _ => None) (fun _ => None)
    (fun _ _ => Err "timeout") (fun _ => Ok []) (fun d => Ok d) (fun _ _ => None)
    (fun _ => None) None (Err "no HEAD").

(** Two diff requests for the same file, the second run after the first. *)
Definition fetchDiff_twice (be : Backend) (cache : DiffCache) (f : FileItem)
    : Msg * Msg * list BackendCall * list BackendCall :=
  let '(msg1, cache1, calls1) := fetchDiffCmd be cache f in
  let '(msg2, _, calls2) := fetchDiffCmd be cache1 f in
  (msg1, msg2, calls1, calls2).

Definition diff_call_count (calls : list BackendCall) : nat :=
  length (filter is_diff_call calls).

(** The commit flow of the spec: with a staged file, the commit key, the
    message "fix: bug" typed in, then on to the date step. *)
Definition model_commit_date : Model :=
  let m := fst (update (set_gitStatus status_a_staged model0) (KeyMsg "c")) in
  let m := set_commitTextarea (ta_SetValue "fix: bug" (commitTextarea m)) m in
  fst (update m (KeyMsg "ctrl+d")).

(** The file list with an error banner up and nothing staged. *)
Definition model_error_banner : Model :=
  set_err "Failed to refresh status: timeout" model0.

(** Byte buffers for the binary heuristic. *)
Definition byte_a : Byte.byte := Byte.x61.
Definition buf_nul_after_sample : list Byte.byte := repeat byte_a 8192 ++ [Byte.x00].
Definition buf_nul100 : list Byte.byte := repeat byte_a 50 ++ [Byte.x00] ++ repeat byte_a 49.
Definition buf_ascii1000 : list Byte.byte := repeat byte_a 1000.
Definition buf_35pct : list Byte.byte := repeat Byte.x01 35 ++ repeat byte_a 65.

(** The claim's reading of the heuristic: a NUL byte in the first 8 KiB,
    or more than 30% of the sampled bytes outside the text set. *)
Definition claimed_isBinary (data : list Byte.byte) : bool :=
  let s := Binary.sample_size data in
  let sample := firstn s data in
  Binary.contains_nul sample || Nat.ltb (30 * s) (100 * Binary.count_non_text sample).

(* ================================================================== *)
(** ** Porcelain status lines, paths of backend calls, further scenarios *)

(** One [git status --porcelain] entry: the index column [X], the
    work-tree column [Y], the path. *)
Definition porcelain_line (e : Ascii.ascii * Ascii.ascii * string) : string :=
  let '(x, y, path) := e in String x (String y (String space_char path)).
Definition entry_staged (e : Ascii.ascii * Ascii.ascii * string) : bool :=
  let '(x, _, _) := e in negb (Ascii.eqb x space_char) && negb (Ascii.eqb x question_char).
Definition entry_unstaged (e : Ascii.ascii * Ascii.ascii * string) : bool :=
  let '(_, y, _) := e in negb (entry_staged e) && negb (Ascii.eqb y space_char).
Definition entry_path (e : Ascii.ascii * Ascii.ascii * string) : string :=
  let '(_, _, path) := e in GoStrings.TrimQuote path.

(** The paths a backend call touches. *)
Definition call_paths (c : BackendCall) : list string :=
  match c with
  | CallStage ps | CallUnstage ps => ps
  | CallDiff p _ | CallReadFile p => [p]
  end.

Global Instance FileStatus_eq_dec : EqDecision FileStatus.
Proof. solve_decision. Defined.

(** The UTF-8 encoding of U+4E2D. *)
Definition cjk_char : list Byte.byte := [Byte.xe4; Byte.xb8; Byte.xad].

(** A git process: one staged and one untracked file on branch [main],
    HEAD contained in [origin/main-old] only; every other command prints
    a hash. *)
Definition demo_proc : Client.Proc := fun args =>
  if decide (args = ["status"; "--porcelain"; "-u"]) then
    (None, "M  a.txt" +:+ String GoStrings.newline ("?? new.txt" +:+ String GoStrings.newline ""))
  else if decide (args = ["branch"; "--show-current"]) then
    (None, "main" +:+ String GoStrings.newline "")
  else if decide (args = ["branch"; "-r"; "--contains"; "HEAD"]) then
    (None, "  origin/main-old" +:+ String GoStrings.newline "")
  else (None, "abc1234" +:+ String GoStrings.newline "").

(** A git process whose every command exits with status 1. *)
Definition exit1_proc : Client.Proc := fun _ => (Some "exit status 1", "diff --git a/a.txt b/a.txt").

(** What [Status] reads from [demo_proc]. *)
Definition demo_status : GitStatus := mkGitStatus ["a.txt"] ["new.txt"] [] "main" false.

Definition modified_char : Ascii.ascii := Ascii.ascii_of_nat 77.

(** [M  a.txt], [ M b.txt], [?? c.txt]. *)
Definition demo_entries : list (Ascii.ascii * Ascii.ascii * string) :=
  [(modified_char, space_char, "a.txt"); (space_char, modified_char, "b.txt");
   (question_char, question_char, "c.txt")].

Fixpoint newlines (n : nat) : string :=
  match n with O => "" | S n => String GoStrings.newline (newlines n) end.

(** The file list with the preview focused on a 40-line diff. *)
Definition model_preview_focused : Model :=
  set_previewContent (newlines 40) (set_previewFocused true model_a).

(** The result messages whose handlers clear [processing]: the stage and
    unstage results. *)
Definition clears_processing (msg : Msg) : bool :=
  match msg with GitStageMsg _ _ | GitUnstageMsg _ _ => true | _ => false end.

(** A backend whose HEAD commit info can be read. *)
Definition head_info_backend : Backend :=
  mkBackend (Ok empty_status) (fun _ => None) (fun _ => None)
    (fun p _ => Ok "") (fun _ => Ok []) (fun d => Ok d) (fun _ _ => None)
    (fun _ => None) None
    (Ok (mkCommitInfo "0123456789abcdef" "0123456" "fix: bug" "dev" "2024-01-01" false)).

(** From the file list, the HEAD menu key, with every message it causes
    processed. *)
Definition head_info_scenario : LoopState :=
  run_script head_info_backend (mkLoopState model0 ∅ []) [KeyMsg "m"].

(* ================================================================== *)
(** * Properties *)

(* ------------------------------------------------------------------ *)
(** ** Selection model *)

(** C10: [toggleSelection] at an index outside [0, len(files)) returns
    at once: the model, its selection map, its file entries and the list's
    items are all left as they were. *)
Theorem toggleSelection_out_of_range (m : Model) (index : Z)
    (Hout : index < 0 \/ Z.of_nat (length (files m)) <= index) :
  toggleSelection index m = m.
Proof.
  unfold toggleSelection.
  destruct Hout as [Hneg | Hbig].
  - replace (index <? 0) with true by (symmetry; apply Z.ltb_lt; exact Hneg).
    reflexivity.
  - replace (Z.of_nat (length (files m)) <=? index) with true
      by (symmetry; apply Z.leb_le; exact Hbig).
    rewrite orb_true_r. reflexivity.
Qed.

Lemma toggleSelection_out_of_range_witness :
  (1 < 0 \/ Z.of_nat (length (files model_a)) <= 1) /\ toggleSelection 1 model_a = model_a.
Proof.
  assert (H : 1 < 0 \/ Z.of_nat (length (files model_a)) <= 1) by (right; vm_compute; discriminate).
  split; [exact H | apply (toggleSelection_out_of_range model_a 1 H)].
Defined.

(* ------------------------------------------------------------------ *)
(** ** Layout engine *)

(** C6, as the claim states it, fails at width 20: the list pane is
    clamped to 30 columns, not [20 - 2]. *)
Lemma NewLayout_narrow_counterexample :
  20 < 100 /\ Layout.ListWidth (Layout.NewLayout 20 24) <> 20 - 2.
Proof. split; [lia | vm_compute; discriminate]. Qed.

(** C6 (amended): for every width below 100 and any height, the preview
    pane is disabled and the list pane is [max (width - 2) 30] wide:
    [width - 2] from width 32 on, the 30-column minimum below that. *)
Theorem NewLayout_narrow (width height : Z) (Hw : width < 100) :
  Layout.PreviewWidth (Layout.NewLayout width height) = 0 /\
  Layout.HasPreviewPane (Layout.NewLayout width height) = false /\
  Layout.ListWidth (Layout.NewLayout width height) = Z.max (width - 2) 30.
Proof.
  unfold Layout.HasPreviewPane, Layout.NewLayout.
  replace (width <? 100) with true by (symmetry; apply Z.ltb_lt; exact Hw).
  destruct (Z.ltb_spec (width - 2) 30); simpl; repeat split; lia.
Qed.

Lemma NewLayout_narrow_witness :
  Layout.ListWidth (Layout.NewLayout 80 24) = 78 /\ Layout.ListWidth (Layout.NewLayout 20 24) = 30.
Proof.
  split.
  - destruct (NewLayout_narrow 80 24 ltac:(lia)) as (_ & _ & ->). reflexivity.
  - destruct (NewLayout_narrow 20 24 ltac:(lia)) as (_ & _ & ->). reflexivity.
Defined.

(* ------------------------------------------------------------------ *)
(** ** Binary-content heuristic *)

Lemma sample_size_pos (data : list Byte.byte) :
  (0 < length data)%nat -> (0 < Binary.sample_size data)%nat.
Proof.
  unfold Binary.sample_size. intros Hlen.
  destruct (8192 <? length data)%nat; [apply Nat.ltb_lt; reflexivity | exact Hlen].
Qed.

Lemma sample_size_zero (data : list Byte.byte) :
  length data = 0%nat -> Binary.sample_size data = 0%nat.
Proof. unfold Binary.sample_size. intros ->. reflexivity. Qed.

(** C7, as the claim states it, fails on 8192 printable bytes followed by
    a NUL: the sampled prefix holds no NUL and no non-text byte, yet the
    buffer is classified binary. *)
Lemma isBinaryFile_counterexample :
  Binary.isBinaryFile buf_nul_after_sample = true /\
  claimed_isBinary buf_nul_after_sample = false.
Proof. split; vm_compute; reflexivity. Qed.

(** C7 (amended): a buffer with a NUL byte anywhere is binary; a buffer
    without one is binary when at least 31% of its first
    [min(len, 8192)] bytes lie outside {tab, LF, CR, space, 32..126,
    128..191}, and text when at most 30% do.  The three buffers of the
    spec come out binary, text and binary. *)
Theorem isBinaryFile_classification (data : list Byte.byte) :
  (Binary.contains_nul data = true -> Binary.isBinaryFile data = true) /\
  (Binary.contains_nul data = false ->
   let s := Binary.sample_size data in
   let n := Binary.count_non_text (firstn s data) in
   ((0 < s)%nat -> (31 * s <= 100 * n)%nat -> Binary.isBinaryFile data = true) /\
   ((100 * n <= 30 * s)%nat -> Binary.isBinaryFile data = false)) /\
  Binary.isBinaryFile buf_nul100 = true /\
  Binary.isBinaryFile buf_ascii1000 = false /\
  Binary.isBinaryFile buf_35pct = true.
Proof.
  split; [| split; [| split; [| split]]].
  - intros H. unfold Binary.isBinaryFile. rewrite H. reflexivity.
  - intros Hnul s n. unfold Binary.isBinaryFile. rewrite Hnul.
    destruct (Nat.ltb_spec 0 (length data)) as [Hlen | Hlen].
    + pose proof (sample_size_pos data Hlen) as Hs. fold s in Hs. fold s n.
      replace (0 <? s)%nat with true by (symmetry; apply Nat.ltb_lt; exact Hs).
      split.
      * intros _ Hge.
        assert (31 <= n * 100 / s)%nat by (apply Nat.div_le_lower_bound; lia).
        replace (30 <? n * 100 / s)%nat with true by (symmetry; apply Nat.ltb_lt; lia).
        reflexivity.
      * intros Hle.
        assert (n * 100 / s <= 30)%nat by (apply Nat.Div0.div_le_upper_bound; lia).
        replace (30 <? n * 100 / s)%nat with false by (symmetry; apply Nat.ltb_ge; lia).
        reflexivity.
    + assert (length data = 0%nat) as H0 by lia.
      pose proof (sample_size_zero data H0) as Hs. fold s in Hs.
      split; [lia | reflexivity].
  - vm_compute. reflexivity.
  - vm_compute. reflexivity.
  - vm_compute. reflexivity.
Qed.

Lemma isBinaryFile_classification_witness :
  Binary.contains_nul buf_35pct = false /\ Binary.isBinaryFile buf_35pct = true.
Proof.
  assert (Hn : Binary.contains_nul buf_35pct = false) by (vm_compute; reflexivity).
  split; [exact Hn |].
  destruct (isBinaryFile_classification buf_35pct) as [_ [H _]].
  apply (proj1 (H Hn)).
  - apply Nat.ltb_lt. vm_compute. reflexivity.
  - apply Nat.leb_le. vm_compute. reflexivity.
Defined.

(* ------------------------------------------------------------------ *)
(** ** The update loop *)

Ltac unfold_handlers :=
  unfold update, handleKeyMsg, handleFileListKeys, handleCommitKeys,
    handleCommitMessageKeys, handleCommitDateKeys, handleHelpKeys,
    handleModifyHeadKeys, handleHeadMenuKeys, handleHeadAmendMessageKeys,
    handleHeadAmendFilesKeys, navigate, applySelection, preview_scrollable,
    toggleSelection, selectAll, deselectAll, rebuild_items, getSelectedFiles,
    getCurrentFile, enterCommitMode, proceedToDateInput, cancelCommit,
    enterModifyHeadMode, enterAmendMessageMode, cancelModifyHead.

(** C1, as the claim states it, fails: with the cursor on [b.txt], a
    diff result for [a.txt] still replaces the preview content. *)
Lemma stale_diff_counterexample :
  option_map Path (getCurrentFile model_ab) = Some "b.txt" /\
  previewContent model_ab = "" /\
  previewContent (fst (update model_ab (GitDiffMsg "a.txt" "diff of a.txt" None)))
    = "diff of a.txt".
Proof. split; [| split]; vm_compute; reflexivity. Qed.

(** C1 (amended): the update loop applies every diff result to the
    preview whatever its path: the preview content and the viewport take
    the result's text (or the error text), nothing else changes, no
    command follows, and the outcome does not depend on the path the
    result names. *)
Theorem diff_result_applied_unconditionally
    (m : Model) (file content : string) (e : option string) :
  let pc := match e with
            | Some e' => "Error loading diff: " +:+ e'
            | None => content
            end in
  update m (GitDiffMsg file content e)
    = (set_viewport (vp_SetContent pc (viewport m)) (set_previewContent pc m), None) /\
  (forall file', update m (GitDiffMsg file' content e) = update m (GitDiffMsg file content e)).
Proof. destruct e; split; reflexivity. Qed.

(** C2: the end-to-end run of the apply-selection action.  The stage call
    for [["a.txt"]] is made and succeeds, yet the selection map still has
    position 0 selected after the refresh, and the next apply would act
    on the now staged [a.txt]: none of the messages this path produces
    (the status message, the refresh request, the new status) clears the
    selection. *)
Theorem apply_selection_keeps_selection :
  ls_calls apply_scenario = [CallDiff "a.txt" false; CallStage ["a.txt"]] /\
  gitStatus (ls_model apply_scenario) = status_a_staged /\
  selectedFiles (ls_model apply_scenario) !! 0 = Some true /\
  getSelectedFiles (ls_model apply_scenario) = [file_a_staged] /\
  (forall (m : Model) (s : string), selectedFiles (fst (update m (StatusMsg s))) = selectedFiles m) /\
  (forall m : Model, selectedFiles (fst (update m GitRefreshMsg)) = selectedFiles m) /\
  (forall (m : Model) (st : GitStatus),
      selectedFiles (fst (update m (GitStatusMsg st))) = selectedFiles m).
Proof.
  split; [vm_compute; reflexivity |].
  split; [vm_compute; reflexivity |].
  split; [vm_compute; reflexivity |].
  split; [vm_compute; reflexivity |].
  split; [| split].
  - intros m s. cbn. destruct (String.eqb s ""); reflexivity.
  - intros m. reflexivity.
  - intros m st. destruct m. unfold_handlers. cbn.
    repeat (case_match; cbn); reflexivity.
Qed.

Lemma run_leaf_no_clear (be : Backend) (cache : DiffCache) (c : Cmd) (msg : Msg) :
  fst (fst (run_leaf be cache c)) = Some msg -> clears_processing msg = false.
Proof.
  destruct c; cbn;
  unfold refreshStatusCmd, fetchDiffCmd, toggleSelectionCmd, commitCmd,
    amendMessageCmd, softResetHeadCmd, fetchHeadInfoCmd;
  repeat (case_match; simplify_eq/=); intros; simplify_eq/=; reflexivity.
Qed.

Lemma run_all_no_clear (be : Backend) (cache : DiffCache) (cs : list Cmd) :
  Forall (fun msg => clears_processing msg = false) (fst (fst (run_all be cache cs))).
Proof.
  revert cache. induction cs as [|c cs IH]; intros cache; cbn; [constructor|].
  pose proof (run_leaf_no_clear be cache c) as Hc.
  destruct (run_leaf be cache c) as [[om cache1] calls1]. cbn in Hc.
  specialize (IH cache1).
  destruct (run_all be cache1 cs) as [[msgs cache2] calls2]. cbn in *.
  apply Forall_app; split; [|done].
  destruct om as [msg|]; cbn; [|constructor]. constructor; [|constructor]. auto.
Qed.

Lemma update_keeps_processing (m : Model) (msg : Msg) :
  clears_processing msg = false -> processing m = true ->
  processing (fst (update m msg)) = true.
Proof.
  intros Hc Hp.
  destruct m as [st0 w0 h0 rd0 er0 sts0 pr0 fs0 gs0 lm0 vp0 sel0 sp0 pf0 lfi0 pc0 lay0 cta0 ci0 cm0 cd0 cs0 hi0 hms0 hmt0].
  cbn in Hp. subst pr0.
  destruct msg; cbn in Hc; try discriminate; unfold_handlers; unfold update_fallthrough in *; cbn;
    repeat (case_match; cbn); reflexivity.
Qed.

Lemma drain_keeps_processing (be : Backend) (fuel : nat) :
  forall (s : LoopState) (q : list Msg),
  Forall (fun msg => clears_processing msg = false) q ->
  processing (ls_model s) = true ->
  processing (ls_model (drain be fuel s q)) = true.
Proof.
  induction fuel as [|fuel IH]; intros s q Hq Hp; [done|].
  destruct q as [|msg q]; [done|]. cbn.
  apply Forall_cons in Hq as [Hm Hq].
  pose proof (update_keeps_processing (ls_model s) msg Hm Hp) as Hp'.
  destruct (update (ls_model s) msg) as [m' oc]. cbn in Hp'.
  pose proof (run_all_no_clear be (ls_cache s)
                (match oc with Some c => flatten_cmd c | None => [] end)) as Hr.
  destruct (run_all be (ls_cache s) _) as [[msgs cache'] calls'].
  apply IH; [apply Forall_app; split; done | done].
Qed.

(** C3 (code bug): the [processing] flag never gates input (two models
    that differ only in [processing] handle every key event alike, apart
    from the flag itself), but once set it is never cleared.  Applying a
    selection sets it and it is still set when the stage result and the
    refresh have been processed; entering the HEAD menu sets it and it is
    still set after the HEAD info has arrived.  No background command
    posts a stage or unstage result, the only messages whose handlers
    clear it, so every message the loop processes keeps it set.  Dispatching
    a commit does not set it at all. *)
Theorem processing_flag_sticks :
  (forall (m : Model) (b : bool) (k : string),
      set_processing false (fst (update (set_processing b m) (KeyMsg k))) =
      set_processing false (fst (update m (KeyMsg k))) /\
      snd (update (set_processing b m) (KeyMsg k)) = snd (update m (KeyMsg k))) /\
  ls_calls apply_scenario = [CallDiff "a.txt" false; CallStage ["a.txt"]] /\
  processing (ls_model apply_scenario) = true /\
  headInfo (ls_model head_info_scenario) <> None /\
  processing (ls_model head_info_scenario) = true /\
  (forall (be : Backend) (cache : DiffCache) (c : Cmd) (msg : Msg),
      fst (fst (run_leaf be cache c)) = Some msg -> clears_processing msg = false) /\
  (forall (be : Backend) (fuel : nat) (s : LoopState) (q : list Msg),
      Forall (fun msg => clears_processing msg = false) q ->
      processing (ls_model s) = true ->
      processing (ls_model (drain be fuel s q)) = true) /\
  snd (update model_commit_date (KeyMsg "enter")) = Some (CmdCommit "fix: bug" "") /\
  processing (fst (update model_commit_date (KeyMsg "enter"))) = false.
Proof.
  split.
  { intros m b k. destruct m. unfold_handlers. cbn.
    repeat (case_match; cbn); split; reflexivity. }
  split; [vm_compute; reflexivity |].
  split; [vm_compute; reflexivity |].
  split; [vm_compute; discriminate |].
  split; [vm_compute; reflexivity |].
  split; [exact run_leaf_no_clear |].
  split; [exact drain_keeps_processing |].
  split; vm_compute; reflexivity.
Qed.

(** After the HEAD info has arrived, leaving the HEAD menu with [esc]
    still leaves the flag set. *)
Lemma processing_flag_sticks_witness :
  processing (ls_model (drain head_info_backend 50 head_info_scenario [KeyMsg "esc"])) = true.
Proof.
  destruct processing_flag_sticks as (_ & _ & _ & _ & _ & _ & Hd & _).
  apply Hd; [repeat constructor | vm_compute; reflexivity].
Defined.

(** C4, as the claim states it, fails when the soft reset fails: the
    result leaves the model in the HEAD menu, not in the file list. *)
Lemma soft_reset_failure_counterexample :
  state model_head_menu = StateModifyHead /\
  headModifyState model_head_menu = HeadModifyStateMenu /\
  snd (update model_head_menu (KeyMsg "f")) = Some CmdSoftReset /\
  state (fst (update (fst (update model_head_menu (KeyMsg "f")))
                     (softResetHeadCmd soft_reset_failing_backend))) = StateModifyHead.
Proof. repeat split; vm_compute; reflexivity. Qed.

(** C4 (amended): in the HEAD menu, with no error banner up, the
    amend-files key dispatches the soft reset and stays in the menu.  When
    its result is processed: on success the state is the file list (HEAD
    info dropped, success status shown); on failure an error banner
    "Amendment failed: ..." is shown and the state stays in the HEAD menu. *)
Theorem soft_reset_outcome (m : Model) (be : Backend)
    (Hs : state m = StateModifyHead)
    (Hh : headModifyState m = HeadModifyStateMenu)
    (He : err m = "") :
  snd (update m (KeyMsg "f")) = Some CmdSoftReset /\
  state (fst (update m (KeyMsg "f"))) = StateModifyHead /\
  let m2 := fst (update (fst (update m (KeyMsg "f"))) (softResetHeadCmd be)) in
  match be_SoftResetHead be with
  | None =>
      state m2 = StateFileList /\ headInfo m2 = None /\
      status m2 = "[OK] HEAD soft reset successfully. Changes staged."
  | Some e =>
      state m2 = StateModifyHead /\ headModifyState m2 = HeadModifyStateMenu /\
      err m2 = "Amendment failed: " +:+ e
  end.
Proof.
  destruct m. cbn in Hs, Hh, He. subst.
  unfold softResetHeadCmd. destruct (be_SoftResetHead be); cbn; repeat split.
Qed.

Lemma soft_reset_outcome_witness :
  state (fst (update (fst (update model_head_menu (KeyMsg "f")))
                     (softResetHeadCmd soft_reset_failing_backend))) = StateModifyHead.
Proof.
  destruct (soft_reset_outcome model_head_menu soft_reset_failing_backend
              ltac:(vm_compute; reflexivity) ltac:(vm_compute; reflexivity)
              ltac:(vm_compute; reflexivity)) as (_ & _ & H).
  exact (proj1 H).
Defined.

(** C5: a commit result received in the commit flow's date step.  On
    success the state is the file list, the draft (message and date) is
    cleared and a status refresh is dispatched with the status timer; on
    failure an error banner "Commit failed: ..." is shown and the state,
    the commit step and the draft are unchanged. *)
Theorem commit_result_outcome (m : Model) (success : bool) (e : option string)
    (message : string)
    (Hs : state m = StateCommitMessage) (Hc : commitState m = CommitStateDate) :
  let '(m', c) := update m (GitCommitMsg success e message) in
  match e with
  | None =>
      state m' = StateFileList /\ commitMessage m' = "" /\ commitDate m' = "" /\
      c = Some (CmdBatch [CmdRefreshStatus; CmdClearStatus])
  | Some e' =>
      err m' = "Commit failed: " +:+ e' /\ err m' <> "" /\
      state m' = StateCommitMessage /\ commitState m' = CommitStateDate /\
      commitMessage m' = commitMessage m /\ commitDate m' = commitDate m /\
      c = Some CmdClearError
  end.
Proof.
  destruct m. cbn in Hs, Hc. subst.
  destruct e as [e' |]; cbn; repeat split; discriminate.
Qed.

Lemma commit_result_outcome_witness :
  state (fst (update model_commit_date (GitCommitMsg true None "ok"))) = StateFileList.
Proof.
  pose proof (commit_result_outcome model_commit_date true None "ok"
                ltac:(vm_compute; reflexivity) ltac:(vm_compute; reflexivity)) as H.
  destruct (update model_commit_date (GitCommitMsg true None "ok")) as [m' c].
  exact (proj1 H).
Defined.

(** C9, as the claim states it, fails while an error banner is up: the
    commit key is swallowed and no "No files staged" status appears. *)
Lemma commit_key_banner_counterexample :
  state model_error_banner = StateFileList /\
  StagedCount (gitStatus model_error_banner) = 0%nat /\
  status (fst (update model_error_banner (KeyMsg "c"))) <> "No files staged".
Proof. split; [| split]; vm_compute; [reflexivity | reflexivity | discriminate]. Qed.

(** C9 (amended): in the file list, with nothing staged, the commit key
    does the following.  With no error banner up it changes nothing but the
    status, which becomes "No files staged", and schedules the status
    timer.  With an error banner up it is ignored: the model is unchanged
    and no command is returned. *)
Theorem commit_key_nothing_staged (m : Model)
    (Hs : state m = StateFileList)
    (H0 : StagedCount (gitStatus m) = 0%nat) :
  (err m = "" ->
   update m (KeyMsg "c") = (set_status "No files staged" m, Some CmdClearStatus)) /\
  (err m <> "" -> update m (KeyMsg "c") = (m, None)).
Proof.
  split; intros He.
  - unfold update. rewrite He. cbn.
    unfold handleKeyMsg. rewrite Hs.
    unfold handleFileListKeys. cbn. rewrite H0. reflexivity.
  - unfold update. destruct (String.eqb_spec (err m) "") as [E|_]; [contradiction|].
    reflexivity.
Qed.

Lemma commit_key_nothing_staged_witness :
  update model0 (KeyMsg "c") = (set_status "No files staged" model0, Some CmdClearStatus) /\
  update model_error_banner (KeyMsg "c") = (model_error_banner, None).
Proof.
  split.
  - apply (commit_key_nothing_staged model0); vm_compute; reflexivity.
  - apply (commit_key_nothing_staged model_error_banner);
      vm_compute; [reflexivity | reflexivity | discriminate].
Defined.

(* ------------------------------------------------------------------ *)
(** ** Diff cache *)

(** C8, as the claim states it, fails when the first diff call fails:
    the failure is not cached and the second request calls the backend
    again, two backend diff calls in all. *)
Lemma diff_cache_failure_counterexample :
  match fetchDiff_twice diff_failing_backend ∅ file_a_unstaged with
  | (_, _, calls1, calls2) => diff_call_count (calls1 ++ calls2) = 2%nat
  end.
Proof. vm_compute. reflexivity. Qed.

(** C8 (amended): two requests for a path not yet cached, the second run
    after the first.  For a staged or unstaged file whose backend diff
    succeeds, the first request makes exactly one backend diff call and
    the second none at all, returning the same message (byte-identical
    text); if the diff fails, nothing is cached and the second request
    calls the backend again.  An untracked file is read from disk, never
    diffed, and once read the second request is served from the cache. *)
Theorem diff_cache_two_requests (be : Backend) (cache : DiffCache) (f : FileItem)
    (Hnew : cache !! Path f = None) :
  match fetchDiff_twice be cache f with
  | (msg1, msg2, calls1, calls2) =>
      match Status f with
      | StatusStaged | StatusUnstaged =>
          match be_Diff be (Path f) (FileStatus_eqb (Status f) StatusStaged) with
          | Ok _ => diff_call_count calls1 = 1%nat /\ calls2 = [] /\ msg2 = msg1
          | Err _ => diff_call_count calls1 = 1%nat /\ diff_call_count calls2 = 1%nat
          end
      | StatusUntracked =>
          diff_call_count (calls1 ++ calls2) = 0%nat /\
          match be_ReadFile be (Path f) with
          | Ok _ => calls2 = [] /\ msg2 = msg1
          | Err _ => calls2 = [CallReadFile (Path f)]
          end
      end
  end.
Proof.
  unfold fetchDiff_twice, fetchDiffCmd. rewrite Hnew.
  destruct f as [p st sym sel]; cbn in *.
  destruct st; cbn.
  - destruct (be_Diff be p true) as [c | e]; cbn.
    + destruct (String.eqb c "" && true) eqn:Hc; cbn.
      * destruct (be_ReadFile be p); cbn; rewrite (lookup_insert_eq (M:=gmap string)); cbn;
          repeat split.
      * rewrite (lookup_insert_eq (M:=gmap string)). repeat split.
    + rewrite Hnew. cbn. split; reflexivity.
  - destruct (be_Diff be p false) as [c | e]; cbn.
    + destruct (String.eqb c "" && true) eqn:Hc; cbn.
      * destruct (be_ReadFile be p); cbn; rewrite (lookup_insert_eq (M:=gmap string)); cbn;
          repeat split.
      * rewrite (lookup_insert_eq (M:=gmap string)). repeat split.
    + rewrite Hnew. cbn. split; reflexivity.
  - destruct (be_ReadFile be p) as [bs | e]; cbn.
    + rewrite andb_false_r. cbn.
      rewrite (lookup_insert_eq (M:=gmap string)). cbn. repeat split.
    + rewrite Hnew. cbn. split; reflexivity.
Qed.

Lemma diff_cache_two_requests_witness :
  match fetchDiff_twice (ok_backend empty_status) ∅ file_a_unstaged with
  | (msg1, msg2, calls1, calls2) => diff_call_count calls1 = 1%nat /\ calls2 = []
  end.
Proof.
  pose proof (diff_cache_two_requests (ok_backend empty_status) ∅ file_a_unstaged
                eq_refl) as H.
  destruct (fetchDiff_twice (ok_backend empty_status) ∅ file_a_unstaged)
    as [[[msg1 msg2] calls1] calls2].
  destruct H as (H1 & H2 & _). split; assumption.
Defined.

(* ================================================================== *)
(** * Further properties of the client, the status parser and the handlers *)


Lemma of_codes_to_codes (s : string) : GoStrings.of_codes (GoStrings.to_codes s) = s.
Proof.
  unfold GoStrings.of_codes, GoStrings.to_codes. rewrite map_map.
  rewrite (map_ext _ id) by (intros; apply Ascii.ascii_nat_embedding).
  rewrite map_id. apply String.string_of_list_ascii_of_string.
Qed.

Lemma trim_head_none (n : nat) strip (l : list nat) :
  strip l = None -> GoStrings.trim_head n strip l = l.
Proof. destruct n; simpl; [done|]. intros ->. done. Qed.

Lemma TrimSpace_id (s : string) :
  GoStrings.space_at_start s = false -> GoStrings.space_at_end s = false ->
  GoStrings.TrimSpace s = s.
Proof.
  unfold GoStrings.space_at_start, GoStrings.space_at_end, GoStrings.TrimSpace,
    GoStrings.TrimLeftSpace, GoStrings.TrimRightSpace.
  destruct (GoStrings.strip_space_head (GoStrings.to_codes s)) eqn:E1; [discriminate|].
  destruct (GoStrings.strip_space_tail_rev (rev (GoStrings.to_codes s))) eqn:E2; [discriminate|].
  intros _ _. rewrite (trim_head_none _ _ _ E1), (trim_head_none _ _ _ E2).
  rewrite rev_involutive. apply of_codes_to_codes.
Qed.

Lemma string_app_nil_l (t : string) : "" +:+ t = t.
Proof. reflexivity. Qed.

Lemma string_app_cons (c : Ascii.ascii) (s t : string) : String c s +:+ t = String c (s +:+ t).
Proof. reflexivity. Qed.

Lemma string_app_nil_r (s : string) : s +:+ "" = s.
Proof. induction s as [|c s IH]; [done|]. rewrite string_app_cons, IH. done. Qed.

Lemma Split_nl_not_nil (s : string) : exists h r, GoStrings.Split_nl s = h :: r.
Proof.
  induction s as [|c s IH]; simpl; [eauto|].
  destruct IH as (h & r & ->). destruct (Ascii.eqb c GoStrings.newline); eauto.
Qed.

Lemma Split_nl_app (s t : string) : count_newlines s = 0%nat ->
  GoStrings.Split_nl (s +:+ t) =
  (s +:+ hd "" (GoStrings.Split_nl t)) :: tl (GoStrings.Split_nl t).
Proof.
  induction s as [|c s IH]; intros H.
  - destruct (Split_nl_not_nil t) as (h & r & Ht). rewrite !string_app_nil_l, Ht. reflexivity.
  - rewrite string_app_cons. simpl in H |- *. unfold GoStrings.newline in *.
    destruct (Ascii.eqb c (Ascii.ascii_of_nat 10)); simpl in H; [lia|].
    rewrite IH by lia. reflexivity.
Qed.

Lemma Split_nl_single (s : string) : count_newlines s = 0%nat -> GoStrings.Split_nl s = [s].
Proof.
  intros H. rewrite <- (string_app_nil_r s) at 1. rewrite Split_nl_app by done.
  simpl. rewrite string_app_nil_r. done.
Qed.

Lemma Split_nl_newline (s : string) :
  GoStrings.Split_nl (String GoStrings.newline s) = "" :: GoStrings.Split_nl s.
Proof. reflexivity. Qed.

Lemma Split_Join_nl (ls : list string) :
  ls <> [] -> Forall (fun l => count_newlines l = 0%nat) ls ->
  GoStrings.Split_nl (GoStrings.Join_nl ls) = ls.
Proof.
  induction ls as [|l ls IH]; [done|]. intros _ Hall. inversion Hall as [|? ? Hl Hls]; subst.
  destruct ls as [|l2 ls].
  - apply Split_nl_single. done.
  - change (GoStrings.Join_nl (l :: l2 :: ls)) with (l +:+ String GoStrings.newline (GoStrings.Join_nl (l2 :: ls))).
    rewrite Split_nl_app by done. rewrite Split_nl_newline. cbn [hd tl].
    rewrite IH by done. rewrite string_app_nil_r. done.
Qed.

Lemma parseLine_entry (st : GitStatus) (e : Ascii.ascii * Ascii.ascii * string) :
  (let '(_, _, p) := e in p <> "") ->
  parseLine st (porcelain_line e) =
  if entry_staged e then add_Staged (entry_path e) st
  else if entry_unstaged e then add_Unstaged (entry_path e) st
  else st.
Proof.
  destruct e as [[x y] p]. intros Hp. destruct p as [|c p]; [done|].
  unfold parseLine, porcelain_line, entry_unstaged, entry_staged, entry_path. simpl.
  destruct (Ascii.eqb x space_char) eqn:Ex, (Ascii.eqb x question_char) eqn:Eq,
    (Ascii.eqb y space_char) eqn:Ey; simpl; try reflexivity;
    destruct (Ascii.eqb y question_char) eqn:Ey'; try reflexivity;
    apply Ascii.eqb_eq in Ey, Ey'; subst; discriminate.
Qed.

Lemma parse_entries (es : list (Ascii.ascii * Ascii.ascii * string)) (st : GitStatus) :
  Forall (fun e => let '(_, _, p) := e in p <> "") es ->
  fold_left parseLine (map porcelain_line es) st =
  mkGitStatus (Staged st ++ map entry_path (List.filter entry_staged es))
              (Unstaged st ++ map entry_path (List.filter entry_unstaged es))
              (Untracked st) (Branch st) (IsClean st).
Proof.
  revert st. induction es as [|e es IH]; intros st Hall.
  - destruct st; simpl. rewrite !app_nil_r. done.
  - inversion Hall as [|? ? He Hes]; subst.
    rewrite map_cons; cbn [fold_left]. rewrite parseLine_entry by done.
    destruct (entry_staged e) eqn:Es;
      [|destruct (entry_unstaged e) eqn:Eu];
      rewrite IH by done; cbn [List.filter]; rewrite ?Es, ?Eu;
      unfold add_Staged, add_Unstaged; simpl;
      rewrite ?map_cons, <- ?app_assoc; try done.
    unfold entry_unstaged. destruct e as [[x y] p]. rewrite Es. simpl. done.
Qed.

(** X1: [parseStatusOutput] on porcelain lines [XY path] (non-empty
    paths, no newline in a line, no white space at either end of the
    output) puts the path of every line whose [X] is neither a space nor
    [?] into [Staged], of every other line whose [Y] is not a space into
    [Unstaged], keeps the order of the lines, and fills no [Untracked]
    entry: an untracked line [?? p] lands in [Unstaged]. *)
Theorem parseStatusOutput_entries (es : list (Ascii.ascii * Ascii.ascii * string))
    (Hwf : Forall (fun e => let '(_, _, p) := e in p <> "" /\ count_newlines (porcelain_line e) = 0%nat) es)
    (Hstart : GoStrings.space_at_start (GoStrings.Join_nl (map porcelain_line es)) = false)
    (Hend : GoStrings.space_at_end (GoStrings.Join_nl (map porcelain_line es)) = false) :
  let st := parseStatusOutput (GoStrings.Join_nl (map porcelain_line es)) in
  Staged st = map entry_path (List.filter entry_staged es) /\
  Unstaged st = map entry_path (List.filter entry_unstaged es) /\
  Untracked st = [].
Proof.
  unfold parseStatusOutput. rewrite TrimSpace_id by done.
  destruct es as [|e es].
  - simpl. done.
  - rewrite Split_Join_nl.
    + rewrite parse_entries; [simpl; done|].
      eapply Forall_impl; [exact Hwf|]. intros [[x y] p] [Hp _]. done.
    + destruct e; simpl; done.
    + apply Forall_map. eapply Forall_impl; [exact Hwf|]. intros [[x y] p] [_ Hn]. done.
Qed.

Lemma parseStatusOutput_entries_witness :
  let st := parseStatusOutput (GoStrings.Join_nl (map porcelain_line demo_entries)) in
  Staged st = ["a.txt"] /\ Unstaged st = ["b.txt"; "c.txt"] /\ Untracked st = [].
Proof.
  refine (parseStatusOutput_entries demo_entries _ _ _).
  - repeat constructor; discriminate.
  - vm_compute. reflexivity.
  - vm_compute. reflexivity.
Defined.

Lemma strip_space_tail_rev_app (l m : list nat) :
  l <> [] -> GoStrings.strip_space_tail_rev l = None ->
  GoStrings.strip_space_tail_rev (l ++ 32%nat :: m) = None.
Proof.
  intros Hne H.
  destruct l as [|a [|b [|c l]]]; [done| | |].
  - simpl in *. destruct (GoStrings.is_ascii_space a); [discriminate|].
    destruct m as [|d m]; simpl; [done|]. rewrite !andb_false_r. done.
  - simpl in *. destruct (GoStrings.is_ascii_space a); [discriminate|].
    destruct ((b =? 194) && ((a =? 133) || (a =? 160)))%nat; [discriminate|].
    simpl. rewrite ?andb_false_r. done.
  - revert H. unfold GoStrings.strip_space_tail_rev. cbn [app]. repeat case_match; congruence.
Qed.

Lemma TrimSpace_space_cons (s : string) :
  GoStrings.TrimSpace (String space_char s) = GoStrings.TrimSpace s.
Proof. reflexivity. Qed.

Lemma to_codes_cons (a : Ascii.ascii) (s : string) :
  GoStrings.to_codes (String a s) = Ascii.nat_of_ascii a :: GoStrings.to_codes s.
Proof. reflexivity. Qed.

(** X2: the output is trimmed as a whole before it is split into lines,
    so a first line [ Y path] (work-tree change only) loses its leading
    space, whatever follows it (the output having no white space at its
    end): its columns shift by one, it is read as a staged entry for the
    path without its first character (or dropped when that leaves less
    than four characters), and the lines after it are parsed as usual. *)
Theorem parseStatusOutput_leading_space (y c : Ascii.ascii) (p tail : string)
    (Hy : GoStrings.is_ascii_space (Ascii.nat_of_ascii y) = false)
    (Hq : Ascii.eqb y question_char = false)
    (Hnl : count_newlines (String c p) = 0%nat)
    (Htail : tail = "" \/ exists more, tail = String GoStrings.newline more)
    (Hend : GoStrings.space_at_end (String c (p +:+ tail)) = false) :
  parseStatusOutput (String space_char (String y (String space_char (String c (p +:+ tail))))) =
  fold_left parseLine (tl (GoStrings.Split_nl tail))
    (match p with
     | EmptyString => zero_GitStatus
     | _ => add_Staged (GoStrings.TrimQuote p) zero_GitStatus
     end).
Proof.
  unfold parseStatusOutput. rewrite TrimSpace_space_cons.
  assert (Hys : Ascii.eqb y space_char = false).
  { destruct (Ascii.eqb y space_char) eqn:E; [|done].
    apply Ascii.eqb_eq in E. subst. discriminate. }
  rewrite TrimSpace_id.
  - change (String y (String space_char (String c (p +:+ tail))))
      with (String y (String space_char (String c p)) +:+ tail).
    rewrite Split_nl_app.
    + assert (Hhd : hd "" (GoStrings.Split_nl tail) = "").
      { destruct Htail as [->|[more ->]]; reflexivity. }
      rewrite Hhd, string_app_nil_r. cbn [fold_left].
      f_equal. destruct p as [|r p]; unfold parseLine; simpl; [done|]. rewrite Hys, Hq. done.
    + simpl. simpl in Hnl. rewrite Hnl.
      destruct (Ascii.eqb y (Ascii.ascii_of_nat 10)) eqn:E; [|done].
      apply Ascii.eqb_eq in E. subst. discriminate.
  - unfold GoStrings.space_at_start. rewrite !to_codes_cons.
    unfold GoStrings.strip_space_head. rewrite Hy.
    destruct (Ascii.nat_of_ascii y =? 194)%nat; [done|].
    simpl. rewrite !andb_false_r. done.
  - unfold GoStrings.space_at_end in *. rewrite !to_codes_cons in *.
    destruct (GoStrings.strip_space_tail_rev (rev (Ascii.nat_of_ascii c :: GoStrings.to_codes (p +:+ tail)))) eqn:E;
      [discriminate|].
    change (Ascii.nat_of_ascii space_char) with 32%nat.
    change (rev (Ascii.nat_of_ascii y :: 32%nat :: Ascii.nat_of_ascii c :: GoStrings.to_codes (p +:+ tail)))
      with ((rev (Ascii.nat_of_ascii c :: GoStrings.to_codes (p +:+ tail)) ++ [32%nat]) ++ [Ascii.nat_of_ascii y]).
    rewrite <- app_assoc. cbn [app].
    rewrite strip_space_tail_rev_app; [done| |done].
    simpl. destruct (rev (GoStrings.to_codes (p +:+ tail))); done.
Qed.

Lemma parseStatusOutput_leading_space_witness :
  parseStatusOutput
    (String space_char (String modified_char (String space_char
       ("a.txt" +:+ String GoStrings.newline "M  b.txt")))) =
  mkGitStatus [".txt"; "b.txt"] [] [] "" false.
Proof.
  refine (parseStatusOutput_leading_space modified_char (Ascii.ascii_of_nat 97) ".txt"
            (String GoStrings.newline "M  b.txt") _ _ _ _ _).
  - vm_compute. reflexivity.
  - vm_compute. reflexivity.
  - vm_compute. reflexivity.
  - right. eexists. reflexivity.
  - vm_compute. reflexivity.
Defined.

Lemma parse_untracked_nil (output : string) : Untracked (parseStatusOutput output) = [].
Proof.
  unfold parseStatusOutput.
  assert (H : forall lines st, Untracked (fold_left parseLine lines st) = Untracked st).
  { induction lines as [|l lines IH]; intros st; [done|]. simpl. rewrite IH.
    unfold parseLine.
    destruct (String.eqb l "") eqn:E0; [done|].
    destruct (String.length l <? 4)%nat; [done|].
    destruct l as [|x [|y [|z p]]]; try done.
    destruct (negb (Ascii.eqb x space_char) && negb (Ascii.eqb x question_char)); [done|].
    destruct (Ascii.eqb y space_char) eqn:Ey; [|done]. simpl.
    destruct (Ascii.eqb x question_char && Ascii.eqb y question_char) eqn:Eq; [|done].
    apply andb_true_iff in Eq as [_ Eq]. apply Ascii.eqb_eq in Eq, Ey. subst. discriminate. }
  rewrite H. done.
Qed.

Ltac unfold_git :=
  unfold Client.Status, Client.GetHeadCommitInfo, Client.CurrentBranch, Client.Stage,
    Client.Unstage, Client.Diff, Client.Commit, Client.AmendMessage, Client.SoftResetHead in *;
  unfold mbind, mret, Client.GitM_bind, Client.GitM_ret, Client.execGit in *.

(** X3: a [Status] call that succeeds reports no untracked file, is clean
    exactly when it has no staged and no unstaged file, and carries an
    empty branch name when [git branch --show-current] fails. *)
Theorem Status_result (p : Client.Proc) (st : GitStatus) (calls : list (list string)) :
  Client.Status p = (Ok st, calls) ->
  Untracked st = [] /\
  (IsClean st = true <-> Staged st = [] /\ Unstaged st = []) /\
  (fst (p ["branch"; "--show-current"]) <> None -> Branch st = "").
Proof.
  unfold_git.
  destruct (p ["status"; "--porcelain"; "-u"]) as [[e|] out]; simpl; [discriminate|].
  destruct (p ["branch"; "--show-current"]) as [[e|] bout] eqn:Eb; simpl; intros H;
    inversion H; subst; clear H; simpl;
    rewrite parse_untracked_nil;
    (split; [done|]); (split; [|try done]);
    rewrite !andb_true_r, andb_true_iff, !Nat.eqb_eq, !length_zero_iff_nil; done.
Qed.

Lemma Status_result_witness :
  Untracked demo_status = [] /\
  (IsClean demo_status = true <-> Staged demo_status = [] /\ Unstaged demo_status = []).
Proof.
  destruct (Status_result demo_proc demo_status
              [["status"; "--porcelain"; "-u"]; ["branch"; "--show-current"]]
              ltac:(vm_compute; reflexivity)) as (H1 & H2 & _).
  split; assumption.
Defined.

(** X4: [Stage] and [Unstage] with no file run no git command and
    succeed; with files they run exactly [git add -- files] or
    [git reset HEAD -- files], and fail exactly when that command fails. *)
Theorem Stage_Unstage_calls (files : list string) (p : Client.Proc) :
  (files = [] -> Client.Stage files p = (None, []) /\ Client.Unstage files p = (None, [])) /\
  (files <> [] ->
     snd (Client.Stage files p) = [["add"; "--"] ++ files] /\
     snd (Client.Unstage files p) = [["reset"; "HEAD"; "--"] ++ files] /\
     (fst (Client.Stage files p) = None <-> fst (p (["add"; "--"] ++ files)) = None) /\
     (fst (Client.Unstage files p) = None <-> fst (p (["reset"; "HEAD"; "--"] ++ files)) = None)).
Proof.
  split.
  - intros ->. done.
  - intros Hne. destruct files as [|f fs]; [done|]. unfold_git. simpl.
    destruct (p ("add" :: "--" :: f :: fs)) as [[e|] o];
    destruct (p ("reset" :: "HEAD" :: "--" :: f :: fs)) as [[e'|] o']; simpl; done.
Qed.

Lemma prefix_app (sub s t : string) :
  String.prefix sub s = true -> String.prefix sub (s +:+ t) = true.
Proof.
  revert s. induction sub as [|c sub IH]; intros s H; [destruct (s +:+ t); done|].
  destruct s as [|d s]; [discriminate|]. rewrite string_app_cons. simpl in *.
  destruct (Ascii.ascii_dec c d); [|discriminate]. apply IH. done.
Qed.

Lemma Contains_app_r (s t sub : string) :
  GoStrings.Contains s sub = true -> GoStrings.Contains (s +:+ t) sub = true.
Proof.
  induction s as [|c s IH]; intros H.
  - simpl in H. destruct sub; [|discriminate]. destruct t; done.
  - rewrite string_app_cons. cbn [GoStrings.Contains] in *. apply orb_true_iff in H as [H|H].
    + pose proof (prefix_app _ _ t H) as Hp. rewrite string_app_cons in Hp. rewrite Hp. done.
    + rewrite IH by done. apply orb_true_r.
Qed.

Lemma Contains_app_l (pre s sub : string) :
  GoStrings.Contains s sub = true -> GoStrings.Contains (pre +:+ s) sub = true.
Proof.
  induction pre as [|c pre IH]; intros H; [done|].
  rewrite string_app_cons. simpl. rewrite IH by done. apply orb_true_r.
Qed.

(** X5: a [git diff] that fails with an error mentioning [exit status 1]
    is reported as success with an empty diff: [execGit] has already
    dropped the command's output. *)
Theorem Diff_exit_status_1 (file : string) (staged : bool) (p : Client.Proc) (e out : string)
    (Hrun : p (Client.diff_args file staged) = (Some e, out))
    (Hexit : GoStrings.Contains e "exit status 1" = true) :
  Client.Diff file staged p = (("", None), [Client.diff_args file staged]).
Proof.
  unfold_git. rewrite Hrun. simpl.
  rewrite (Contains_app_l _ _ _ (Contains_app_r _ _ _ Hexit)). done.
Qed.

Lemma Diff_exit_status_1_witness :
  Client.Diff "a.txt" false exit1_proc = (("", None), [Client.diff_args "a.txt" false]).
Proof.
  apply (Diff_exit_status_1 "a.txt" false exit1_proc "exit status 1" "diff --git a/a.txt b/a.txt");
    vm_compute; reflexivity.
Defined.

(** X6: [Commit] and [AmendMessage] with an empty message fail without
    running git; otherwise they run exactly one command ([git commit -m],
    with [--date] only for a non-empty date, or [git commit --amend -m]),
    and [Commit] fails exactly when its command fails. *)
Theorem Commit_AmendMessage_calls (message date : string) (p : Client.Proc) :
  (message = "" ->
     Client.Commit message date p = (Some "commit message cannot be empty", []) /\
     Client.AmendMessage message p = (Some "commit message cannot be empty", [])) /\
  (message <> "" ->
     snd (Client.Commit message date p) =
       [if String.eqb date "" then ["commit"; "-m"; message]
        else ["commit"; "-m"; message; "--date"; date]] /\
     snd (Client.AmendMessage message p) = [["commit"; "--amend"; "-m"; message]] /\
     (fst (Client.Commit message date p) = None <->
        fst (p (Client.commit_args message date)) = None)).
Proof.
  split.
  - intros ->. done.
  - intros Hne. apply String.eqb_neq in Hne. unfold_git. rewrite Hne.
    unfold Client.commit_args.
    destruct (p (["commit"; "-m"; message] ++ (if String.eqb date "" then [] else ["--date"; date])))
      as [[e|] o];
    destruct (p ["commit"; "--amend"; "-m"; message]) as [[e'|] o'];
    destruct (String.eqb date ""); simpl; done.
Qed.

Lemma list_ascii_of_string_app (s t : string) :
  String.list_ascii_of_string (s +:+ t) = String.list_ascii_of_string s ++ String.list_ascii_of_string t.
Proof. induction s as [|c s IH]; [done|]. rewrite string_app_cons. simpl. rewrite IH. done. Qed.

Lemma strip_trailing_newline_app (b : string) :
  Client.strip_trailing_newline (b +:+ String GoStrings.newline "") = b.
Proof.
  unfold Client.strip_trailing_newline. rewrite list_ascii_of_string_app. simpl.
  rewrite rev_unit. rewrite Ascii.eqb_refl. rewrite rev_involutive.
  apply String.string_of_list_ascii_of_string.
Qed.

(** X7: [CurrentBranch] returns the output of [git branch
    --show-current] without its final newline. *)
Theorem CurrentBranch_strips_one_newline (p : Client.Proc) (b : string)
    (Hrun : p ["branch"; "--show-current"] = (None, b +:+ String GoStrings.newline "")) :
  Client.CurrentBranch p = ((b, None), [["branch"; "--show-current"]]).
Proof. unfold_git. rewrite Hrun. simpl. rewrite strip_trailing_newline_app. done. Qed.

Lemma CurrentBranch_strips_one_newline_witness :
  Client.CurrentBranch demo_proc = (("main", None), [["branch"; "--show-current"]]).
Proof. apply (CurrentBranch_strips_one_newline demo_proc "main"). vm_compute. reflexivity. Defined.

(** X8: when the six commands before the remote-branch check succeed,
    [GetHeadCommitInfo] runs the seven commands in order and returns the
    trimmed outputs; [IsPushed] is a substring test of ["origin/" ++
    branch] on the output of [git branch -r --contains HEAD], and false
    when that command fails. *)
Theorem GetHeadCommitInfo_result (p : Client.Proc)
    (Hok : Forall (fun args => fst (p args) = None) (firstn 6 Client.head_info_args)) :
  Client.GetHeadCommitInfo p =
  (Ok (mkCommitInfo
         (GoStrings.TrimSpace (snd (p ["rev-parse"; "HEAD"])))
         (GoStrings.TrimSpace (snd (p ["rev-parse"; "--short"; "HEAD"])))
         (GoStrings.TrimSpace (snd (p ["log"; "-1"; "--pretty=format:%s"; "HEAD"])))
         (GoStrings.TrimSpace (snd (p ["log"; "-1"; "--pretty=format:%an"; "HEAD"])))
         (GoStrings.TrimSpace (snd (p ["log"; "-1"; "--pretty=format:%ar"; "HEAD"])))
         (match p ["branch"; "-r"; "--contains"; "HEAD"] with
          | (None, output) =>
              GoStrings.Contains output
                ("origin/" +:+ Client.strip_trailing_newline (snd (p ["branch"; "--show-current"])))
          | (Some _, _) => false
          end)),
   Client.head_info_args).
Proof.
  unfold Client.head_info_args in Hok. simpl in Hok.
  apply Forall_cons in Hok as [A1 Hok]; apply Forall_cons in Hok as [A2 Hok];
  apply Forall_cons in Hok as [A3 Hok]; apply Forall_cons in Hok as [A4 Hok];
  apply Forall_cons in Hok as [A5 Hok]; apply Forall_cons in Hok as [A6 _].
  unfold_git.
  destruct (p ["rev-parse"; "--short"; "HEAD"]) as [[?|] o1]; simpl in A1; [discriminate|].
  destruct (p ["rev-parse"; "HEAD"]) as [[?|] o2]; simpl in A2; [discriminate|].
  destruct (p ["log"; "-1"; "--pretty=format:%s"; "HEAD"]) as [[?|] o3]; simpl in A3; [discriminate|].
  destruct (p ["log"; "-1"; "--pretty=format:%an"; "HEAD"]) as [[?|] o4]; simpl in A4; [discriminate|].
  destruct (p ["log"; "-1"; "--pretty=format:%ar"; "HEAD"]) as [[?|] o5]; simpl in A5; [discriminate|].
  destruct (p ["branch"; "--show-current"]) as [[?|] o6]; simpl in A6; [discriminate|].
  simpl. destruct (p ["branch"; "-r"; "--contains"; "HEAD"]) as [[?|] o7]; simpl; done.
Qed.

Lemma GetHeadCommitInfo_result_witness :
  match fst (Client.GetHeadCommitInfo demo_proc) with
  | Ok info => IsPushed info = true
  | Err _ => False
  end.
Proof.
  rewrite (GetHeadCommitInfo_result demo_proc ltac:(vm_compute; repeat constructor)).
  vm_compute. reflexivity.
Defined.

Lemma mirrored_from_spec (sel : gmap Z bool) (k : nat) (fs : list FileItem) :
  mirrored_from sel k fs = true <->
  forall i f, fs !! i = Some f -> Selected f = selected_at sel (Z.of_nat (k + i)).
Proof.
  revert k. induction fs as [|f fs IH]; intros k; simpl.
  - split; [intros _ i f H; done|done].
  - rewrite andb_true_iff, IH, Bool.eqb_true_iff. split.
    + intros [Hf Hr] [|i] g Hg; simpl in Hg.
      * injection Hg as <-. rewrite Nat.add_0_r. done.
      * rewrite (Hr i g Hg). do 2 f_equal. lia.
    + intros H. split.
      * rewrite (H 0%nat f eq_refl). rewrite Nat.add_0_r. done.
      * intros i g Hg. rewrite (H (S i) g Hg). do 2 f_equal. lia.
Qed.

Lemma selection_mirrored_spec (m : Model) :
  selection_mirrored m = true <->
  forall i f, files m !! i = Some f -> Selected f = selected_at (selectedFiles m) (Z.of_nat i).
Proof. unfold selection_mirrored. rewrite mirrored_from_spec. done. Qed.

Lemma all_true_from_below (n : nat) (i k : Z) (sel : gmap Z bool) :
  k < i -> all_true_from i n sel !! k = sel !! k.
Proof.
  revert i sel. induction n as [|n IH]; intros i sel Hk; [done|]. simpl.
  rewrite IH by lia. rewrite lookup_insert_ne by lia. done.
Qed.

Lemma all_true_from_in (n : nat) (i k : Z) (sel : gmap Z bool) :
  i <= k < i + Z.of_nat n -> all_true_from i n sel !! k = Some true.
Proof.
  revert i sel. induction n as [|n IH]; intros i sel Hk; [lia|]. simpl.
  destruct (decide (k = i)) as [->|Hne].
  - rewrite all_true_from_below by lia. apply (lookup_insert_eq (M:=gmap Z)).
  - apply IH. lia.
Qed.

Lemma map_snd_imap {A : Type} (f : nat -> nat) (l : list A) :
  map snd (imap (fun i x => (f i, x)) l) = l.
Proof.
  revert f. induction l as [|x l IH]; intros f; [done|].
  rewrite imap_cons. simpl. f_equal. apply (IH (fun i => f (S i))).
Qed.

Lemma filter_all {A : Type} (P : A -> Prop) `{forall x, Decision (P x)} (l : list A) :
  Forall P l -> filter P l = l.
Proof.
  induction 1 as [|x l Hx _ IH]; [done|]. rewrite filter_cons_True by done. rewrite IH. done.
Qed.

Lemma filter_none {A : Type} (P : A -> Prop) `{forall x, Decision (P x)} (l : list A) :
  Forall (fun x => ~ P x) l -> filter P l = [].
Proof.
  induction 1 as [|x l Hx _ IH]; [done|]. rewrite filter_cons_False by done. done.
Qed.

Lemma getSelectedFiles_all (m : Model) :
  (forall i, (i < length (files m))%nat -> selected_at (selectedFiles m) (Z.of_nat i) = true) ->
  getSelectedFiles m = files m.
Proof.
  intros H. unfold getSelectedFiles. rewrite filter_all.
  - apply (map_snd_imap (fun i => i)).
  - apply Forall_forall. intros [i f] Hin. apply elem_of_lookup_imap in Hin as (j & g & Heq & Hj).
    injection Heq as -> ->. simpl. rewrite H; [done|]. apply lookup_lt_Some in Hj. done.
Qed.

Lemma getSelectedFiles_none (m : Model) :
  (forall i, selected_at (selectedFiles m) (Z.of_nat i) = false) -> getSelectedFiles m = [].
Proof.
  intros H. unfold getSelectedFiles. rewrite filter_none; [done|].
  apply Forall_forall. intros [i f] _. simpl. rewrite H. intros [].
Qed.

Lemma getSelectedFiles_ext (m1 m2 : Model) :
  files m1 = files m2 ->
  (forall j, selected_at (selectedFiles m1) j = selected_at (selectedFiles m2) j) ->
  getSelectedFiles m1 = getSelectedFiles m2.
Proof.
  intros Hf Hs. unfold getSelectedFiles. rewrite Hf. f_equal.
  apply list_filter_iff. intros [i f]. rewrite Hs. done.
Qed.

(** X9: after [selectAll] the selection map and the files' [Selected]
    flags agree and every file is selected; after [deselectAll] they agree
    and no file is selected, also when it follows [selectAll]. *)
Theorem selectAll_deselectAll_selection (m : Model) :
  selection_mirrored (selectAll m) = true /\
  getSelectedFiles (selectAll m) = map (set_Selected true) (files m) /\
  selection_mirrored (deselectAll m) = true /\
  getSelectedFiles (deselectAll m) = [] /\
  getSelectedFiles (deselectAll (selectAll m)) = [].
Proof.
  assert (Hsel : forall i, (i < length (files m))%nat ->
            selected_at (selectedFiles (selectAll m)) (Z.of_nat i) = true).
  { intros i Hi. unfold selected_at. simpl. rewrite all_true_from_in; [done|lia]. }
  assert (Hdes : forall m', selection_mirrored (deselectAll m') = true /\ getSelectedFiles (deselectAll m') = []).
  { intros m'. split.
    - apply selection_mirrored_spec. simpl. intros i f Hf.
      apply list_lookup_fmap_Some in Hf as (g & -> & _). done.
    - apply getSelectedFiles_none. intros i. done. }
  split; [|split; [|split; [apply Hdes|split; apply Hdes]]].
  - apply selection_mirrored_spec. intros i f Hf. simpl in Hf |- *.
    pose proof (lookup_lt_Some _ _ _ Hf) as Hi. rewrite length_map in Hi.
    apply list_lookup_fmap_Some in Hf as (g & -> & _). simpl.
    unfold selected_at. rewrite all_true_from_in; [done|lia].
  - rewrite getSelectedFiles_all; [done|]. intros i Hi. apply Hsel. simpl in Hi.
    rewrite length_map in Hi. done.
Qed.

Lemma toggleSelection_in_range (m : Model) (i : Z) :
  0 <= i < Z.of_nat (length (files m)) ->
  let b := negb (selected_at (selectedFiles m) i) in
  selectedFiles (toggleSelection i m) = <[i := b]> (selectedFiles m) /\
  files (toggleSelection i m) = alter (set_Selected b) (Z.to_nat i) (files m).
Proof.
  intros Hi. unfold toggleSelection.
  replace ((i <? 0) || (Z.of_nat (length (files m)) <=? i)) with false
    by (symmetry; apply orb_false_iff; split; [apply Z.ltb_ge|apply Z.leb_gt]; lia).
  done.
Qed.

Lemma selected_at_insert (sel : gmap Z bool) (i j : Z) (b : bool) :
  selected_at (<[i := b]> sel) j = if decide (i = j) then b else selected_at sel j.
Proof.
  unfold selected_at. destruct (decide (i = j)) as [->|Hne].
  - rewrite (lookup_insert_eq (M:=gmap Z)). done.
  - rewrite lookup_insert_ne by done. done.
Qed.

(** X10: [toggleSelection] keeps the selection map and the files'
    [Selected] flags in agreement, and toggling the same index twice
    restores the files, the selection and the selected files. *)
Theorem toggleSelection_mirror (m : Model) (i : Z) (H : selection_mirrored m = true) :
  selection_mirrored (toggleSelection i m) = true /\
  files (toggleSelection i (toggleSelection i m)) = files m /\
  (forall j, selected_at (selectedFiles (toggleSelection i (toggleSelection i m))) j =
             selected_at (selectedFiles m) j) /\
  getSelectedFiles (toggleSelection i (toggleSelection i m)) = getSelectedFiles m.
Proof.
  rewrite selection_mirrored_spec in H.
  destruct (decide (0 <= i < Z.of_nat (length (files m)))) as [Hi|Hout].
  2:{ assert (Hm : toggleSelection i m = m).
      { unfold toggleSelection.
        replace ((i <? 0) || (Z.of_nat (length (files m)) <=? i)) with true; [done|].
        symmetry. apply orb_true_iff. destruct (decide (i < 0)); [left; apply Z.ltb_lt; lia|].
        right. apply Z.leb_le. lia. }
      rewrite !Hm. split; [apply selection_mirrored_spec; done|done]. }
  destruct (toggleSelection_in_range m i Hi) as [Hs1 Hf1].
  set (s := selected_at (selectedFiles m) i) in *.
  assert (Hi1 : 0 <= i < Z.of_nat (length (files (toggleSelection i m)))).
  { rewrite Hf1, length_alter. done. }
  destruct (toggleSelection_in_range _ i Hi1) as [Hs2 Hf2].
  assert (Hb : negb (selected_at (selectedFiles (toggleSelection i m)) i) = s).
  { rewrite Hs1, selected_at_insert, decide_True by done. apply negb_involutive. }
  rewrite Hb in Hs2, Hf2.
  assert (Hsel : forall j, selected_at (selectedFiles (toggleSelection i (toggleSelection i m))) j =
                           selected_at (selectedFiles m) j).
  { intros j. rewrite Hs2, Hs1, !selected_at_insert.
    destruct (decide (i = j)) as [->|]; done. }
  assert (Hfiles : files (toggleSelection i (toggleSelection i m)) = files m).
  { rewrite Hf2, Hf1. apply list_eq. intros j.
    rewrite !list_lookup_alter. destruct (decide (Z.to_nat i = j)) as [<-|]; [rewrite decide_True by done|done].
    destruct (files m !! Z.to_nat i) as [f|] eqn:Ef; [|done]. simpl. f_equal.
    apply H in Ef. rewrite Z2Nat.id in Ef by lia. fold s in Ef.
    destruct f; simpl in *. subst. done. }
  split; [|split; [exact Hfiles|split; [exact Hsel|apply getSelectedFiles_ext; done]]].
  apply selection_mirrored_spec. rewrite Hf1, Hs1. intros j f Hf.
  rewrite list_lookup_alter in Hf. rewrite selected_at_insert.
  destruct (decide (Z.to_nat i = j)) as [<-|Hne].
  - rewrite decide_True by lia. destruct (files m !! Z.to_nat i); simpl in Hf; [|done].
    injection Hf as <-. done.
  - rewrite decide_False by lia. apply H. done.
Qed.

Lemma toggleSelection_mirror_witness :
  selection_mirrored (toggleSelection 0 model_a) = true /\
  getSelectedFiles (toggleSelection 0 (toggleSelection 0 model_a)) = getSelectedFiles model_a.
Proof.
  destruct (toggleSelection_mirror model_a 0 ltac:(vm_compute; reflexivity)) as (H1 & _ & _ & H4).
  split; assumption.
Defined.

Lemma update_status_msg_model (m : Model) (st : GitStatus) :
  let m' := fst (update m (GitStatusMsg st)) in
  files m' = AllFiles st /\ lm_items (listModel m') = AllFiles st /\
  gitStatus m' = st /\ selectedFiles m' = selectedFiles m.
Proof. destruct m; cbn; repeat (case_match; cbn); done. Qed.

(** X11: a status message rebuilds the file list from the status (every
    file unselected, the list widget showing the same files), keeps the
    selection map, and asks at most for the diff of the file under the
    cursor. *)
Theorem status_msg_rebuilds_files (m : Model) (st : GitStatus) :
  let '(m', c) := update m (GitStatusMsg st) in
  files m' = AllFiles st /\ Forall (fun f => Selected f = false) (files m') /\
  lm_items (listModel m') = files m' /\ gitStatus m' = st /\
  selectedFiles m' = selectedFiles m /\
  (c = None \/ exists f, c = Some (CmdFetchDiff f) /\ getCurrentFile m' = Some f).
Proof.
  pose proof (update_status_msg_model m st) as (Hf & Hl & Hg & Hs).
  destruct (update m (GitStatusMsg st)) as [m' c] eqn:E. simpl in *.
  rewrite Hf, Hl. split; [done|]. split.
  { unfold AllFiles. rewrite !Forall_app, !Forall_map. split_and!; apply Forall_forall; done. }
  split; [done|]. split; [done|]. split; [done|].
  revert E. destruct m; cbn; repeat (case_match; cbn); intros E; inversion E; subst; eauto.
Qed.

Lemma matches_cons (k a : string) (l : list string) :
  matches k (a :: l) = true -> k = a \/ matches k l = true.
Proof. unfold matches. simpl. rewrite orb_true_iff, String.eqb_eq. done. Qed.

(** X12: a navigation key leaves the files and the selection alone; it
    fetches a diff only with the preview shown, and then for the file
    under the cursor, after the cursor moved to a new index, with the
    preview cleared. *)
Theorem navigate_fetches_new_file (k : string) (m : Model) :
  let '(m', c) := navigate k m in
  files m' = files m /\ selectedFiles m' = selectedFiles m /\
  (showPreview m = false -> c = None) /\
  (c = None \/
   exists f, c = Some (CmdFetchDiff f) /\ getCurrentFile m' = Some f /\
             previewContent m' = "" /\ lastFileIndex m' = lm_index (listModel m') /\
             lastFileIndex m <> lm_index (listModel m')).
Proof.
  unfold navigate.
  set (m1 := set_listModel (list_UpdateKey k (listModel m)) m).
  destruct (showPreview m1 && (0 <=? lm_index (listModel m1))
            && negb (lm_index (listModel m1) =? lastFileIndex m1)) eqn:Hc.
  - apply andb_true_iff in Hc as [Hc Hne]. apply andb_true_iff in Hc as [Hp _].
    apply negb_true_iff, Z.eqb_neq in Hne.
    destruct (getCurrentFile (set_lastFileIndex (lm_index (listModel m1)) m1)) as [f|] eqn:Hf.
    + split_and!; try done; try (intros Hs; simpl in Hp; congruence).
      right. exists f. split_and!; done.
    + split_and!; try done. left. done.
  - split_and!; try done. left. done.
Qed.

(** X13: with the preview focused and longer than its viewport, the up
    and down keys only scroll the viewport: the rest of the model is
    unchanged and no command is issued. *)
Theorem preview_scroll_keeps_cursor (m : Model) (k : string)
    (Hst : state m = StateFileList) (Herr : err m = "")
    (Hscroll : preview_scrollable m = true)
    (Hk : matches k keys_Up || matches k keys_Down = true) :
  exists v, update m (KeyMsg k) = (set_viewport v m, None) /\
            vp_content v = vp_content (viewport m).
Proof.
  apply orb_true_iff in Hk as [Hk|Hk]; unfold keys_Up, keys_Down in Hk;
  repeat (apply matches_cons in Hk as [->|Hk]; [|]); try discriminate;
  unfold update; rewrite Herr; simpl; unfold handleKeyMsg; rewrite Hst;
  unfold handleFileListKeys; simpl; rewrite Hscroll; eexists; split; reflexivity.
Qed.

Lemma preview_scroll_keeps_cursor_witness :
  exists v, update model_preview_focused (KeyMsg "j") = (set_viewport v model_preview_focused, None) /\
            vp_content v = vp_content (viewport model_preview_focused).
Proof.
  apply (preview_scroll_keeps_cursor model_preview_focused "j"); vm_compute; reflexivity.
Defined.

(** X14: on the help screen [?] and [q] / [ctrl+c] go back to the file
    list (quitting is not possible there) and every other key does
    nothing. *)
Theorem help_screen_keys (m : Model) (k : string)
    (Hst : state m = StateHelp) (Herr : err m = "") :
  update m (KeyMsg k) =
  (if matches k keys_ToggleHelp || matches k keys_Quit then set_state StateFileList m else m, None).
Proof.
  destruct m; cbn in Hst, Herr; subst.
  unfold update, handleKeyMsg, handleHelpKeys. cbn [negb String.eqb state err].
  destruct (matches k keys_ToggleHelp || matches k keys_Quit); reflexivity.
Qed.

Lemma help_screen_keys_witness :
  update (set_state StateHelp model_a) (KeyMsg "x") = (set_state StateHelp model_a, None).
Proof. rewrite (help_screen_keys (set_state StateHelp model_a) "x"); reflexivity. Defined.

(** X15: confirming an empty commit message or an empty amended message
    with [ctrl+d] sets the error banner and schedules its clearing; no
    commit or amend command is issued. *)
Theorem empty_message_rejected (m : Model) (Herr : err m = "") :
  (state m = StateCommitMessage -> commitState m = CommitStateMessage ->
   ta_value (commitTextarea m) = "" ->
   update m (KeyMsg "ctrl+d") =
     (set_err "Commit message cannot be empty" (set_commitMessage "" m), Some CmdClearError)) /\
  (state m = StateModifyHead -> headModifyState m = HeadModifyStateAmendMessage ->
   ta_value (headMessageTextarea m) = "" ->
   update m (KeyMsg "ctrl+d") = (set_err "Commit message cannot be empty" m, Some CmdClearError)).
Proof.
  split; intros Hst Hsub Hval; unfold update; rewrite Herr; simpl; unfold handleKeyMsg; rewrite Hst.
  - unfold handleCommitKeys. rewrite Hsub. unfold handleCommitMessageKeys. simpl.
    rewrite Hval. reflexivity.
  - unfold handleModifyHeadKeys. rewrite Hsub. unfold handleHeadAmendMessageKeys. simpl.
    rewrite Hval. reflexivity.
Qed.

Lemma empty_message_rejected_witness :
  update (enterCommitMode model_a) (KeyMsg "ctrl+d") =
  (set_err "Commit message cannot be empty" (set_commitMessage "" (enterCommitMode model_a)),
   Some CmdClearError).
Proof. apply (proj1 (empty_message_rejected (enterCommitMode model_a) eq_refl)); reflexivity. Defined.

(** X16: [esc] while typing the commit message leaves commit mode and
    clears message and date; [esc] at the date step goes back to the
    message step with the typed message kept and the date input cleared. *)
Theorem commit_escape (m : Model) (Hst : state m = StateCommitMessage) (Herr : err m = "") :
  (commitState m = CommitStateMessage ->
   let '(m', c) := update m (KeyMsg "esc") in
   c = None /\ state m' = StateFileList /\ commitMessage m' = "" /\ commitDate m' = "" /\
   ta_focused (commitTextarea m') = false /\ ta_focused (commitInput m') = false) /\
  (commitState m = CommitStateDate ->
   let '(m', c) := update m (KeyMsg "esc") in
   c = None /\ state m' = StateCommitMessage /\ commitState m' = CommitStateMessage /\
   commitMessage m' = commitMessage m /\ ta_value (commitInput m') = "" /\
   ta_focused (commitTextarea m') = true /\ ta_value (commitTextarea m') = ta_value (commitTextarea m)).
Proof.
  split; intros Hcs; unfold update; rewrite Herr; simpl; unfold handleKeyMsg; rewrite Hst;
    unfold handleCommitKeys; rewrite Hcs; simpl.
  - unfold handleCommitMessageKeys. simpl. done.
  - unfold handleCommitDateKeys. simpl. done.
Qed.

Lemma commit_escape_witness :
  state (fst (update (enterCommitMode model_a) (KeyMsg "esc"))) = StateFileList.
Proof.
  pose proof (proj1 (commit_escape (enterCommitMode model_a) eq_refl eq_refl) eq_refl) as H.
  destruct (update (enterCommitMode model_a) (KeyMsg "esc")) as [m' c].
  destruct H as (_ & H & _). exact H.
Defined.

(** X17: from width 100 on, [NewLayout] always shows the preview pane;
    list and preview are both at least 30 columns and with the 2-column
    gap fill the width, and the content height is [max 5 (height - 5)]. *)
Theorem NewLayout_wide (width height : Z) (Hw : 100 <= width) :
  let l := Layout.NewLayout width height in
  Layout.HasPreviewPane l = true /\
  Layout.ListWidth l + Layout.PreviewWidth l + 2 = width /\
  30 <= Layout.ListWidth l /\ 30 <= Layout.PreviewWidth l /\
  Layout.ContentHeight l = Z.max 5 (height - 5) /\
  Layout.ListHeight l = Z.max 5 (height - 5) - 2.
Proof.
  unfold Layout.NewLayout, Layout.HasPreviewPane, Layout.ListHeight. cbn zeta.
  destruct (Z.ltb_spec width 100); [lia|].
  pose proof (Z.div_mod width 2 ltac:(lia)). pose proof (Z.mod_pos_bound width 2 ltac:(lia)).
  pose proof (Z.div_mod (width * 2) 5 ltac:(lia)).
  pose proof (Z.mod_pos_bound (width * 2) 5 ltac:(lia)).
  destruct (Z.ltb_spec width 140); cbn;
  repeat match goal with
         | |- context [if ?a <? ?b then _ else _] => destruct (Z.ltb_spec a b); cbn
         end; split_and!; try lia; apply Z.ltb_lt; lia.
Qed.

Lemma NewLayout_wide_witness :
  Layout.HasPreviewPane (Layout.NewLayout 100 24) = true /\
  Layout.ListWidth (Layout.NewLayout 100 24) + Layout.PreviewWidth (Layout.NewLayout 100 24) + 2 = 100.
Proof.
  destruct (NewLayout_wide 100 24 ltac:(lia)) as (H1 & H2 & _). split; assumption.
Defined.

Lemma length_concat_cjk (n : nat) : length (concat (repeat cjk_char n)) = (3 * n)%nat.
Proof. induction n as [|n IH]; [done|]. cbn [repeat concat]. rewrite length_app, IH. simpl. lia. Qed.

Lemma contains_nul_cjk (n : nat) : Binary.contains_nul (concat (repeat cjk_char n)) = false.
Proof.
  induction n as [|n IH]; [done|]. cbn [repeat concat].
  unfold Binary.contains_nul in *. rewrite existsb_app, IH. done.
Qed.

Lemma count_non_text_cjk (n : nat) : Binary.count_non_text (concat (repeat cjk_char n)) = n.
Proof.
  induction n as [|n IH]; [done|]. cbn [repeat concat].
  unfold Binary.count_non_text in *. rewrite filter_app, length_app, IH. done.
Qed.

Lemma firstn_concat_cjk (k m r : nat) :
  firstn (3 * k + r) (concat (repeat cjk_char (k + m))) =
  concat (repeat cjk_char k) ++ firstn r (concat (repeat cjk_char m)).
Proof.
  induction k as [|k IH]; [done|].
  replace (3 * S k + r)%nat with (length cjk_char + (3 * k + r))%nat by (cbn; lia).
  cbn [Nat.add repeat concat]. rewrite firstn_app_2, IH. reflexivity.
Qed.

Lemma count_non_text_app (a b : list Byte.byte) :
  Binary.count_non_text (a ++ b) = (Binary.count_non_text a + Binary.count_non_text b)%nat.
Proof. unfold Binary.count_non_text. rewrite filter_app, length_app. reflexivity. Qed.

(** X18: UTF-8 text made of a three-byte character (U+4E2D) repeated is
    classified as binary, whatever its length: its lead bytes, one in three,
    lie outside the accepted ranges (33% > 30%), and a buffer longer than
    the 8192-byte sample still has 2731 of them in the sample. *)
Theorem isBinaryFile_cjk (n : nat) (Hn : (1 <= n)%nat) :
  Binary.isBinaryFile (concat (repeat cjk_char n)) = true.
Proof.
  unfold Binary.isBinaryFile. rewrite contains_nul_cjk.
  unfold Binary.sample_size. cbv zeta. rewrite length_concat_cjk.
  replace (0 <? 3 * n)%nat with true by (symmetry; apply Nat.ltb_lt; lia).
  destruct (Nat.ltb_spec 8192 (3 * n)) as [Hbig|Hsmall].
  - remember 2730%nat as K eqn:HK.
    assert (E : 8192%nat = (3 * K + 2)%nat) by (subst K; reflexivity).
    rewrite E in Hbig |- *.
    replace n with (K + S (n - K - 1))%nat by lia.
    rewrite firstn_concat_cjk. cbn [repeat concat firstn app].
    rewrite count_non_text_app, count_non_text_cjk.
    replace (firstn 2 (cjk_char ++ _)) with [Byte.xe4; Byte.xb8] by reflexivity.
    rewrite HK. vm_compute. reflexivity.
  - rewrite firstn_all2 by (rewrite length_concat_cjk; lia).
    replace (0 <? 3 * n)%nat with true by (symmetry; apply Nat.ltb_lt; lia).
    rewrite count_non_text_cjk.
    assert (31 <= n * 100 / (3 * n))%nat by (apply Nat.div_le_lower_bound; lia).
    replace (30 <? n * 100 / (3 * n))%nat with true by (symmetry; apply Nat.ltb_lt; lia).
    done.
Qed.

Lemma isBinaryFile_cjk_witness :
  Binary.isBinaryFile (concat (repeat cjk_char 3000)) = true.
Proof. apply (isBinaryFile_cjk 3000); apply Nat.leb_le; vm_compute; reflexivity. Defined.

Lemma filter_staged_bool (fs : list FileItem) :
  filter (fun f => FileStatus_eqb (Status f) StatusStaged) fs =
  filter (fun f => Status f = StatusStaged) fs.
Proof.
  induction fs as [|f fs IH]; [done|]. rewrite !filter_cons.
  destruct (Status f) eqn:E; repeat case_decide; simpl in *; rewrite ?E in *;
    try contradiction; try congruence; f_equal; done.
Qed.

Lemma filter_nonstaged_bool (fs : list FileItem) :
  filter (fun f => negb (FileStatus_eqb (Status f) StatusStaged)) fs =
  filter (fun f => Status f <> StatusStaged) fs.
Proof.
  induction fs as [|f fs IH]; [done|]. rewrite !filter_cons.
  destruct (Status f) eqn:E; repeat case_decide; simpl in *; rewrite ?E in *;
    try contradiction; try congruence; f_equal; done.
Qed.

Lemma length_filter_staged (fs : list FileItem) :
  (length (filter (fun f => Status f = StatusStaged) fs) +
   length (filter (fun f => Status f <> StatusStaged) fs) = length fs)%nat.
Proof.
  induction fs as [|f fs IH]; [done|]. rewrite !filter_cons.
  repeat case_decide; simpl; try contradiction; lia.
Qed.

(** X19: [toggleSelectionCmd] stages the non-staged files exactly when
    they are more than half of the selection, and otherwise unstages the
    staged ones (also when the split is even); it makes exactly one
    backend call and reports a count or an error. *)
Theorem toggleSelectionCmd_majority (be : Backend) (fs : list FileItem) :
  let staged := map Path (filter (fun f => Status f = StatusStaged) fs) in
  let others := map Path (filter (fun f => Status f <> StatusStaged) fs) in
  let '(msg, calls) := toggleSelectionCmd be fs in
  ((2 * length staged < length fs)%nat /\ calls = [CallStage others] /\
   (msg = StatusMsg ("Staged " +:+ itoa (length others) +:+ " file(s)") \/
    exists e, msg = ErrorMsg ("Failed to stage files: " +:+ e))) \/
  ((length fs <= 2 * length staged)%nat /\ calls = [CallUnstage staged] /\
   (msg = StatusMsg ("Unstaged " +:+ itoa (length staged) +:+ " file(s)") \/
    exists e, msg = ErrorMsg ("Failed to unstage files: " +:+ e))).
Proof.
  unfold toggleSelectionCmd. cbn zeta.
  rewrite filter_staged_bool, filter_nonstaged_bool.
  pose proof (length_filter_staged fs) as Hl.
  rewrite !length_map.
  destruct (Nat.ltb_spec (length (filter (fun f => Status f = StatusStaged) fs))
                         (length (filter (fun f => Status f <> StatusStaged) fs))).
  - destruct (be_Stage be _); cbv beta iota zeta; left; (split; [lia|]); (split; [done|]);
      [right; eauto | left; done].
  - destruct (be_Unstage be _); cbv beta iota zeta; right; (split; [lia|]); (split; [done|]);
      [right; eauto | left; done].
Qed.

(** X20: [stageFilesCmd] and [unstageFilesCmd] on the same files pass
    every path exactly once between them; neither calls the backend with
    an empty list, and each reports that there is nothing to do instead. *)
Theorem stage_unstage_partition (be : Backend) (fs : list FileItem) :
  let '(msg1, calls1) := stageFilesCmd be fs in
  let '(msg2, calls2) := unstageFilesCmd be fs in
  concat (map call_paths (calls1 ++ calls2)) ≡ₚ map Path fs /\
  Forall (fun c => exists ps, c = CallStage ps /\ ps <> []) calls1 /\
  Forall (fun c => exists ps, c = CallUnstage ps /\ ps <> []) calls2 /\
  (calls1 = [] -> msg1 = StatusMsg "No files to stage") /\
  (calls2 = [] -> msg2 = StatusMsg "No files to unstage").
Proof.
  unfold stageFilesCmd, unstageFilesCmd. cbn zeta.
  rewrite filter_staged_bool, filter_nonstaged_bool.
  assert (Hp : map Path (filter (fun f => Status f <> StatusStaged) fs) ++
               map Path (filter (fun f => Status f = StatusStaged) fs) ≡ₚ map Path fs).
  { rewrite <- map_app. apply Permutation_map.
    induction fs as [|f fs IH]; [done|]. rewrite !filter_cons.
    repeat case_decide; simpl; try contradiction;
      first [constructor; done | rewrite <- Permutation_middle; constructor; done]. }
  revert Hp.
  destruct (map Path (filter (fun f => Status f <> StatusStaged) fs)) as [|a l];
  destruct (map Path (filter (fun f => Status f = StatusStaged) fs)) as [|b r];
  repeat case_match; simplify_eq/=; rewrite ?app_nil_r; intros Hp;
  split_and!; try done; repeat constructor; eexists; split; done.
Qed.

(** X21: [fetchDiffCmd] always answers with a diff message for the
    requested path, touches no other cache entry, caches only the content
    it sends, serves a cached path without any backend call, and every
    backend call it makes concerns the requested path. *)
Theorem fetchDiffCmd_cache (be : Backend) (cache : DiffCache) (f : FileItem) :
  let '(msg, cache', calls) := fetchDiffCmd be cache f in
  (exists content, msg = GitDiffMsg (Path f) content None) /\
  (forall k, k <> Path f -> cache' !! k = cache !! k) /\
  (forall c, cache' !! Path f = Some c -> msg = GitDiffMsg (Path f) c None) /\
  (forall c, cache !! Path f = Some c -> cache' = cache /\ calls = []) /\
  Forall (fun c => call_paths c = [Path f]) calls.
Proof.
  unfold fetchDiffCmd.
  destruct (cache !! Path f) as [c0|] eqn:Hc.
  { split_and!; eauto; intros c Hc'; congruence. }
  destruct (Status f);
  repeat (case_match; simplify_eq/=);
  split_and!; eauto; try (intros ??; congruence);
  try (intros k Hk; rewrite lookup_insert_ne by congruence; done);
  try (intros c; rewrite (lookup_insert_eq (M:=gmap string)); intros [= ->]; done);
  repeat constructor.
Qed.

Lemma Status_Ok_untracked (p : Client.Proc) (st : GitStatus) :
  fst (Client.Status p) = Ok st -> Untracked st = [].
Proof.
  unfold Client.Status, Client.CurrentBranch.
  unfold mbind, mret, Client.GitM_bind, Client.GitM_ret, Client.execGit.
  destruct (p ["status"; "--porcelain"; "-u"]) as [[e|] out]; simpl; [discriminate|].
  destruct (p ["branch"; "--show-current"]) as [[e|] bout]; simpl; intros [= <-]; simpl;
    apply parse_untracked_nil.
Qed.

(** X22: a status refresh through the git client never produces an
    untracked entry in the file list. *)
Theorem refresh_never_untracked_items (p : Client.Proc) rf vd (m : Model) (st : GitStatus)
    (H : refreshStatusCmd (Client.backend p rf vd) = GitStatusMsg st) :
  Untracked st = [] /\
  Forall (fun f => Status f <> StatusUntracked) (files (fst (update m (GitStatusMsg st)))).
Proof.
  unfold refreshStatusCmd, Client.backend in H. cbn [be_Status] in H.
  destruct (fst (Client.Status p)) as [st'|e] eqn:Es; [|discriminate].
  injection H as <-. apply Status_Ok_untracked in Es.
  split; [done|].
  destruct (update_status_msg_model m st') as (-> & _).
  unfold AllFiles. rewrite Es. simpl. rewrite app_nil_r, Forall_app, !Forall_map.
  split; apply Forall_forall; intros ? _; discriminate.
Qed.

Lemma refresh_never_untracked_items_witness :
  Untracked demo_status = [] /\
  Forall (fun f => Status f <> StatusUntracked) (files (fst (update model0 (GitStatusMsg demo_status)))).
Proof.
  apply (refresh_never_untracked_items demo_proc (fun _ => Err "unreadable") (fun d => Ok d)).
  vm_compute. reflexivity.
Defined.

(** X23: a window-size message marks the model ready, stores the size
    and [NewLayout] of it, sizes the list to the layout's list height and
    the viewport to [max 1 (list height - 3)] lines, both as wide as their
    pane when the preview pane is shown (else the full width less 4),
    keeps files, selection and state, and at most asks for the diff of
    the file under the cursor, only with the preview enabled. *)
Theorem window_size_layout (m : Model) (w h : Z) :
  let l := Layout.NewLayout w h in
  let '(m', c) := update m (WindowSizeMsg w h) in
  ready m' = true /\ width m' = w /\ height m' = h /\ layout m' = l /\
  vp_height (viewport m') = Z.max 1 (Layout.ListHeight l - 3) /\
  lm_height (listModel m') = Layout.ListHeight l /\
  lm_width (listModel m') =
    (if Layout.HasPreviewPane l && showPreview m then Layout.ListWidth l - 4 else w - 4) /\
  vp_width (viewport m') =
    (if Layout.HasPreviewPane l && showPreview m then Layout.PreviewWidth l - 4 else w - 4) /\
  files m' = files m /\ selectedFiles m' = selectedFiles m /\ state m' = state m /\
  (c = None \/
   (showPreview m = true /\ exists f, c = Some (CmdFetchDiff f) /\ getCurrentFile m' = Some f)).
Proof.
  cbn zeta. unfold update. destruct m as [st0 w0 h0 rd0 er0 sts0 pr0 fs0 gs0 lm0 vp0 sel0 sp0 pf0 lfi0 pc0 lay0 cta0 ci0 cm0 cd0 cs0 hi0 hms0 hmt0].
  cbn -[Layout.NewLayout Layout.ListHeight Layout.HasPreviewPane Layout.ListWidth
        Layout.PreviewWidth getCurrentFile].
  destruct (Z.ltb_spec (Layout.ListHeight (Layout.NewLayout w h) - 3) 1);
  [replace (Z.max 1 _) with 1 by lia
  |replace (Z.max 1 _) with (Layout.ListHeight (Layout.NewLayout w h) - 3) by lia];
  (destruct (Layout.HasPreviewPane (Layout.NewLayout w h) && sp0) eqn:Hp;
   cbn -[Layout.NewLayout Layout.ListHeight Layout.HasPreviewPane Layout.ListWidth
         Layout.PreviewWidth getCurrentFile]);
  (destruct (sp0 && _) eqn:Hs;
   [destruct (getCurrentFile _) eqn:Hf|]);
  cbn -[Layout.NewLayout Layout.ListHeight Layout.HasPreviewPane Layout.ListWidth
        Layout.PreviewWidth getCurrentFile];
  split_and!; try done; try (left; done);
  right; apply andb_true_iff in Hs as [-> _]; eauto.
Qed.

(** X24: in the HEAD menu, [m] opens the amend-message editor focused
    and filled with the current HEAD message, [f] starts the soft reset
    with the processing flag set, [esc] and [q] leave the menu (forgetting
    the HEAD info; [q] does not quit), and any other key does nothing. *)
Theorem head_menu_keys (m : Model) (k : string) (Hst : state m = StateModifyHead)
    (Hsub : headModifyState m = HeadModifyStateMenu) (Herr : err m = "") :
  let '(m', c) := update m (KeyMsg k) in
  (k = "m" -> c = None /\ state m' = StateModifyHead /\
     headModifyState m' = HeadModifyStateAmendMessage /\
     ta_focused (headMessageTextarea m') = true /\
     (forall i, headInfo m = Some i -> ta_value (headMessageTextarea m') = Message i)) /\
  (k = "f" -> c = Some CmdSoftReset /\ m' = set_processing true m) /\
  (k = "esc" \/ k = "q" -> c = None /\ state m' = StateFileList /\ headInfo m' = None /\
     headModifyState m' = HeadModifyStateMenu) /\
  (k <> "m" -> k <> "f" -> k <> "esc" -> k <> "q" -> m' = m /\ c = None).
Proof.
  destruct m as [st0 w0 h0 rd0 er0 sts0 pr0 fs0 gs0 lm0 vp0 sel0 sp0 pf0 lfi0 pc0 lay0 cta0 ci0 cm0 cd0 cs0 hi0 hms0 hmt0]. cbn in Hst, Hsub, Herr. subst.
  unfold update, handleKeyMsg, handleModifyHeadKeys, handleHeadMenuKeys.
  cbn [negb String.eqb err state headModifyState].
  destruct (String.eqb_spec k "m") as [->|Hm]; cbn.
  { split_and!; [intros _; destruct hi0 as [i0|]; cbn; split_and!; try done; intros i [= <-]; done
                |intros Hk; discriminate | intros [Hk|Hk]; discriminate | intros Hk; done]. }
  destruct (String.eqb_spec k "f") as [->|Hf]; cbn.
  { split_and!; [intros Hk; congruence | intros _; done | intros [Hk|Hk]; discriminate
                |intros _ Hk; done]. }
  destruct (String.eqb_spec k "esc") as [->|He]; cbn.
  { split_and!; [intros Hk; congruence | intros Hk; congruence | intros _; done
                |intros _ _ Hk; done]. }
  destruct (String.eqb_spec k "q") as [->|Hq]; cbn.
  { split_and!; [intros Hk; congruence | intros Hk; congruence | intros _; done
                |intros _ _ _ Hk; done]. }
  split_and!; [intros Hk; congruence | intros Hk; congruence | intros [Hk|Hk]; congruence
              |intros; done].
Qed.

Lemma head_menu_keys_witness :
  snd (update model_head_menu (KeyMsg "f")) = Some CmdSoftReset.
Proof.
  pose proof (head_menu_keys model_head_menu "f" ltac:(vm_compute; reflexivity)
                ltac:(vm_compute; reflexivity) ltac:(vm_compute; reflexivity)) as H.
  destruct (update model_head_menu (KeyMsg "f")) as [m' c].
  destruct H as (_ & H & _). exact (proj1 (H eq_refl)).
Defined.
